(** * fresnel: buffer views and primitive geometry, embedded in Rocq

    A verification development for the geometry / attribute layer of
    fresnel: [fresnel/util.py] (class [array]) and [fresnel/geometry.py]
    (classes [Geometry], [Cylinder], [Box], [Mesh]).

    Conventions of the embedding.
    - Numbers are rationals [Q].  The native buffers hold float32: a value
      is rounded to float32 when it is assigned to a buffer or converted
      with [numpy.asarray(..., dtype=numpy.float32)], and sums and
      differences of float32 arrays are rounded to float32 (round to
      nearest, ties to even, with subnormals).  Infinities and NaN are not
      modelled, and the float64 arithmetic of [Box._generate_points] is
      exact here.
    - A numpy array is a shape together with its elements in row-major
      (C-contiguous) order, which is how the native buffers expose them.
    - Python exceptions are values of [exn]; a method is a state
      transformer that returns [Ok v] or [Raise e] together with the state
      reached at that point (effects performed before a raise persist).
    - The rendering backend is a store of native buffers and native
      geometry handles plus a log of the calls it received, i.e. an
      instrumented backend stub. *)

From Stdlib Require Import QArith Qminmax Qpower.
From stdpp Require Import base option list gmap strings.

Open Scope string_scope.
Open Scope list_scope.

(** ** Exceptions and results *)

Inductive exn : Type :=
| ValueError (msg : string)
| IndexError (msg : string)
| TypeError (msg : string)
| RuntimeError (msg : string)
| AttributeError (msg : string).

Inductive result (A : Type) : Type :=
| Ok (a : A)
| Raise (e : exn).
Arguments Ok {A} a.
Arguments Raise {A} e.

Definition is_Ok {A} (r : result A) : bool :=
  match r with Ok _ => true | Raise _ => false end.

Definition rbind {A B} (r : result A) (k : A -> result B) : result B :=
  match r with Ok a => k a | Raise e => Raise e end.

(** ** A model of the numpy operations the sources use *)

Module numpy.

Record ndarray : Type := mk_nd { shape : list nat; flat : list Q }.

(** Number of elements of an array of shape [sh]. *)
Definition size (sh : list nat) : nat := foldr Nat.mul 1%nat sh.

(** [chunks k n l]: the [n] consecutive blocks of [k] elements of [l]
    (the rows of an array whose rows hold [k] elements each). *)
Fixpoint chunks {A} (k n : nat) (l : list A) : list (list A) :=
  match n with
  | O => []
  | S n' => take k l :: chunks k n' (drop k l)
  end.

(** An index expression is a tuple of per-axis indexers: [a[i]], or a
    slice [a[start:stop]] (both bounds optional; [a[:]] is [Full]). *)
Inductive ix : Type :=
| At (i : Z)
| Slice (start stop : option Z).

Definition Full : ix := Slice None None.

(** Python's index normalisation: negative indices count from the end. *)
Definition norm_index (i : Z) (n : nat) : option nat :=
  if (0 <=? i)%Z && (i <? Z.of_nat n)%Z then Some (Z.to_nat i)
  else if (- Z.of_nat n <=? i)%Z && (i <? 0)%Z then Some (Z.to_nat (i + Z.of_nat n))
  else None.

(** Python's slice bound adjustment for step 1: negative bounds count from
    the end and the result is clipped to [0, n]. *)
Definition clip (i : Z) (n : nat) : nat :=
  let j := if (i <? 0)%Z then (i + Z.of_nat n)%Z else i in
  Z.to_nat (Z.min (Z.max j 0) (Z.of_nat n)).

(** First selected row and number of selected rows of [start:stop]. *)
Definition slice_bounds (start stop : option Z) (n : nat) : nat * nat :=
  let lo := match start with Some i => clip i n | None => O end in
  let hi := match stop with Some i => clip i n | None => n end in
  (lo, (hi - lo)%nat).

(** Shape of [a[sl]] for [a] of shape [sh]; [None] is numpy's IndexError
    (index out of bounds, or too many indices). *)
Fixpoint slice_shape (sl : list ix) (sh : list nat) : option (list nat) :=
  match sl, sh with
  | [], _ => Some sh
  | _ :: _, [] => None
  | At i :: r, n :: sh' =>
      match norm_index i n with
      | Some _ => slice_shape r sh'
      | None => None
      end
  | Slice a b :: r, n :: sh' =>
      match slice_shape r sh' with
      | Some s => Some (snd (slice_bounds a b n) :: s)
      | None => None
      end
  end.

(** Elements of [a[sl]], row-major. *)
Fixpoint gather (sl : list ix) (sh : list nat) (l : list Q) : list Q :=
  match sl, sh with
  | [], _ => l
  | _ :: _, [] => l
  | At i :: r, n :: sh' =>
      match norm_index i n with
      | Some k => gather r sh' (nth k (chunks (size sh') n l) [])
      | None => []
      end
  | Slice a b :: r, n :: sh' =>
      let '(lo, m) := slice_bounds a b n in
      concat (map (gather r sh') (take m (drop lo (chunks (size sh') n l))))
  end.

(** Elements of [a] after [a[sl] = b], where [b] already has the shape of
    [a[sl]]. *)
Fixpoint scatter (sl : list ix) (sh : list nat) (l b : list Q) : list Q :=
  match sl, sh with
  | [], _ => b
  | _ :: _, [] => b
  | At i :: r, n :: sh' =>
      let cs := chunks (size sh') n l in
      match norm_index i n with
      | Some k => concat (<[k := scatter r sh' (nth k cs []) b]> cs)
      | None => l
      end
  | Slice a b0 :: r, n :: sh' =>
      let '(lo, m) := slice_bounds a b0 n in
      let cs := chunks (size sh') n l in
      let bs := chunks (size (default [] (slice_shape r sh'))) m b in
      concat (take lo cs
              ++ zip_with (scatter r sh') (take m (drop lo cs)) bs
              ++ drop (lo + m) cs)
  end.

(** In an assignment numpy drops leading axes of length 1 of the value
    while it has more axes than the target. *)
Fixpoint strip_ones (ssh : list nat) (k : nat) : list nat :=
  match k, ssh with
  | S k', 1%nat :: s' => strip_ones s' k'
  | _, _ => ssh
  end.

(** Broadcast the elements [l] of an array of shape [ssh] to shape [tsh]
    (trailing axes are aligned; an axis of length 1 is repeated). *)
Fixpoint broadcast_flat (ssh : list nat) (l : list Q) (tsh : list nat)
  : option (list Q) :=
  match tsh with
  | [] => match ssh with [] => Some l | _ :: _ => None end
  | n :: t' =>
      if (length ssh <? length tsh)%nat
      then (fun c => concat (replicate n c)) <$> broadcast_flat ssh l t'
      else match ssh with
           | [] => None
           | m :: s' =>
               if (m =? n)%nat
               then (fun cs => concat cs)
                      <$> mapM (fun c => broadcast_flat s' c t')
                               (chunks (size s') m l)
               else if (m =? 1)%nat
               then (fun c => concat (replicate n c)) <$> broadcast_flat s' l t'
               else None
           end
  end.

Definition broadcast_to (a : ndarray) (tsh : list nat) : option ndarray :=
  mk_nd tsh <$> broadcast_flat (shape a) (flat a) tsh.

(** Shape of the result of an elementwise operation on two arrays. *)
Fixpoint broadcast_dims (r1 r2 : list nat) : option (list nat) :=
  match r1, r2 with
  | [], r | r, [] => Some r
  | m :: r1', n :: r2' =>
      match broadcast_dims r1' r2' with
      | Some r =>
          if (m =? n)%nat then Some (m :: r)
          else if (m =? 1)%nat then Some (n :: r)
          else if (n =? 1)%nat then Some (m :: r)
          else None
      | None => None
      end
  end.

Definition broadcast_shapes (s1 s2 : list nat) : option (list nat) :=
  reverse <$> broadcast_dims (reverse s1) (reverse s2).

Definition broadcast_msg : string :=
  "operands could not be broadcast together".

(** [a (op) b], elementwise with broadcasting. *)
Definition binop (f : Q -> Q -> Q) (a b : ndarray) : result ndarray :=
  match broadcast_shapes (shape a) (shape b) with
  | None => Raise (ValueError broadcast_msg)
  | Some s =>
      match broadcast_flat (shape a) (flat a) s,
            broadcast_flat (shape b) (flat b) s with
      | Some x, Some y => Ok (mk_nd s (zip_with f x y))
      | _, _ => Raise (ValueError broadcast_msg)
      end
  end.

(** The integer nearest to [a / b], for [b > 0], ties to the even one. *)
Definition round_half_even (a b : Z) : Z :=
  let q := (a / b)%Z in
  let r := (a mod b)%Z in
  match (2 * r ?= b)%Z with
  | Lt => q
  | Gt => (q + 1)%Z
  | Eq => if Z.even q then q else (q + 1)%Z
  end.

(** [floor (log2 (n / d))], for positive [n] and [d]. *)
Definition floor_log2 (n d : Z) : Z :=
  let k := (Z.log2 n - Z.log2 d)%Z in
  if (0 <=? k)%Z
  then (if (d * 2 ^ k <=? n)%Z then k else k - 1)%Z
  else (if (d <=? n * 2 ^ (- k))%Z then k else k - 1)%Z.

(** [numpy.float32(x)]: the float32 nearest to [x] (IEEE 754 binary32: 24
    significant bits, least exponent -126, so that the spacing is at least
    2^-149; round to nearest, ties to even), as a fraction in lowest terms.
    Overflow to infinity is outside this model: above the range of float32
    (about 3.4e38) the exponent is not bounded.  The numbers of Python are
    themselves float64 values or integers; the conversion is defined on
    every rational. *)
Definition to_float32 (x : Q) : Q :=
  let n := Z.abs (Qnum x) in
  let d := Zpos (Qden x) in
  if (n =? 0)%Z then 0
  else
    let q := (Z.max (floor_log2 n d) (-126) - 23)%Z in
    let v := if (0 <=? q)%Z
             then inject_Z (round_half_even n (d * 2 ^ q) * 2 ^ q)
             else Qred (round_half_even (n * 2 ^ (- q)) d # Z.to_pos (2 ^ (- q))) in
    if (Qnum x <? 0)%Z then - v else v.

(** [x + y] and [x - y] in float32. *)
Definition add32 (x y : Q) : Q := to_float32 (x + y).
Definition sub32 (x y : Q) : Q := to_float32 (x - y).

(** [a + b] and [a - b] for float32 arrays [a] and [b] (or a float32
    array and a Python number): the result is a float32 array. *)
Definition add : ndarray -> ndarray -> result ndarray := binop add32.
Definition subtract : ndarray -> ndarray -> result ndarray := binop sub32.

(** [a[sl]] *)
Definition getitem (a : ndarray) (sl : list ix) : result ndarray :=
  match slice_shape sl (shape a) with
  | None => Raise (IndexError "index out of bounds or too many indices")
  | Some s => Ok (mk_nd s (gather sl (shape a) (flat a)))
  end.

(** [a[sl] = data] for [data] of the element type of [a], returning the
    new contents of [a]; the conversion of the value to the element type
    is [astype] below. *)
Definition setitem (a : ndarray) (sl : list ix) (data : ndarray)
  : result ndarray :=
  match slice_shape sl (shape a) with
  | None => Raise (IndexError "index out of bounds or too many indices")
  | Some s =>
      let ssh := strip_ones (shape data) (length (shape data) - length s) in
      match broadcast_flat ssh (flat data) s with
      | None => Raise (ValueError "could not broadcast input array")
      | Some b => Ok (mk_nd (shape a) (scatter sl (shape a) (flat a) b))
      end
  end.

Definition zero_size_msg (op : string) : string :=
  String.append "zero-size array to reduction operation "
    (String.append op " which has no identity").

(** Reduction of the rows of an array along axis 0. *)
Definition reduce0 (op : string) (f : Q -> Q -> Q) (a : ndarray)
  : result ndarray :=
  match shape a with
  | [] => Raise (ValueError "axis 0 is out of bounds for array of dimension 0")
  | n :: sh' =>
      match chunks (size sh') n (flat a) with
      | [] => Raise (ValueError (zero_size_msg op))
      | c :: cs => Ok (mk_nd sh' (foldl (zip_with f) c cs))
      end
  end.

(** [numpy.min(a, axis=0)] and [numpy.max(a, axis=0)] *)
Definition min0 : ndarray -> result ndarray := reduce0 "minimum" Qmin.
Definition max0 : ndarray -> result ndarray := reduce0 "maximum" Qmax.

(** [numpy.array([a1, ..., an])] for arrays of one common shape. *)
Definition stack (l : list ndarray) : result ndarray :=
  match l with
  | [] => Ok (mk_nd [0%nat] [])
  | a :: _ =>
      if forallb (fun b => bool_decide (shape b = shape a)) l
      then Ok (mk_nd (length l :: shape a) (concat (map flat l)))
      else Raise (ValueError "inhomogeneous shape")
  end.

(** [a.reshape(sh)] *)
Definition reshape (a : ndarray) (sh : list nat) : result ndarray :=
  if (size sh =? size (shape a))%nat then Ok (mk_nd sh (flat a))
  else Raise (ValueError "cannot reshape array").

(** [len(a)] *)
Definition len (a : ndarray) : result nat :=
  match shape a with
  | [] => Raise (TypeError "len() of unsized object")
  | n :: _ => Ok n
  end.

(** [numpy.zeros(sh)] *)
Definition zeros (sh : list nat) : ndarray := mk_nd sh (replicate (size sh) 0%Q).

(** A Python number, a list of numbers and a list of rows as arrays. *)
Definition scalar (x : Q) : ndarray := mk_nd [] [x].
Definition vector (l : list Q) : ndarray := mk_nd [length l] l.

End numpy.

Import numpy.

(** ** The backend collaborator, as an instrumented stub *)

Inductive dtype : Type := float32 | uint8.

(** Conversion of a number to an element type: rounding to float32, and
    for uint8 truncation towards zero, modulo 256 (the C conversion that
    numpy performs, for a value in the range of the C integers).  Every
    buffer of the geometries below is a float32 buffer. *)
Definition to_uint8 (x : Q) : Q :=
  inject_Z (Z.quot (Qnum x) (Zpos (Qden x)) mod 256).

Definition cast (d : dtype) (x : Q) : Q :=
  match d with
  | float32 => to_float32 x
  | uint8 => to_uint8 x
  end.

(** [numpy.asarray(a, dtype=d)] *)
Definition astype (d : dtype) (a : ndarray) : ndarray :=
  mk_nd (shape a) (cast d <$> flat a).

(** A native buffer object: backend-owned memory that is reachable
    between [map()] and [unmap()]. *)
Record Buffer : Type := mk_Buffer {
  contents : ndarray;
  element_type : dtype;
  mapped : bool
}.

(** Material state held by a native geometry. *)
Record Material : Type := mk_Material {
  solid : Q;
  color : Q * Q * Q;
  primitive_color_mix : Q
}.

(** Native geometry handles, by kind, with their attribute buffers. *)
Inductive GeometryKind : Type :=
| GeometryCylinder (points radius color : nat)
| GeometryMesh (position orientation color : nat).

Record NativeGeometry : Type := mk_NativeGeometry {
  kind : GeometryKind;
  material : Material;
  outline_material : Material;
  outline_width : Q
}.

(** Calls received by the backend, in the order received. *)
Inductive call : Type :=
| map_call (b : nat)
| unmap_call (b : nat)
| update_call (g : nat)
| setMaterial_call (g : nat)
| setOutlineMaterial_call (g : nat)
| setOutlineWidth_call (g : nat).

Global Instance call_eq_dec : EqDecision call.
Proof. solve_decision. Defined.

Record State : Type := mk_State {
  buffers : gmap nat Buffer;
  geometries : gmap nat NativeGeometry;
  scene_geometry : list nat;
  log : list call
}.

Definition set_buffers (f : gmap nat Buffer -> gmap nat Buffer) (s : State) : State :=
  mk_State (f (buffers s)) (geometries s) (scene_geometry s) (log s).
Definition set_geometries (f : gmap nat NativeGeometry -> gmap nat NativeGeometry)
  (s : State) : State :=
  mk_State (buffers s) (f (geometries s)) (scene_geometry s) (log s).
Definition set_scene_geometry (f : list nat -> list nat) (s : State) : State :=
  mk_State (buffers s) (geometries s) (f (scene_geometry s)) (log s).
Definition record (c : call) (s : State) : State :=
  mk_State (buffers s) (geometries s) (scene_geometry s) (log s ++ [c]).

(** ** Methods: state transformers that may raise *)

Definition M (A : Type) : Type := State -> State * result A.

Definition ret {A} (a : A) : M A := fun s => (s, Ok a).
Definition raise {A} (e : exn) : M A := fun s => (s, Raise e).
Definition bind {A B} (m : M A) (k : A -> M B) : M B :=
  fun s => match m s with
           | (s', Ok a) => k a s'
           | (s', Raise e) => (s', Raise e)
           end.
Definition lift {A} (r : result A) : M A := fun s => (s, r).
Definition modify (f : State -> State) : M unit := fun s => (f s, Ok tt).
Definition when_Some {A} (o : option A) (k : A -> M unit) : M unit :=
  match o with Some a => k a | None => ret tt end.

Declare Scope M_scope.
Delimit Scope M_scope with M.
Notation "x <- m ;; k" := (bind m (fun x => k))
  (at level 100, m at next level, right associativity) : M_scope.
Notation "m ;; k" := (bind m (fun _ => k))
  (at level 100, right associativity) : M_scope.
Open Scope M_scope.

Definition invalid_handle : exn := RuntimeError "invalid native handle".

Module Backend.

Definition get_buffer (b : nat) : M Buffer :=
  fun s => match buffers s !! b with
           | Some B => (s, Ok B)
           | None => (s, Raise invalid_handle)
           end.

Definition put_buffer (b : nat) (B : Buffer) : M unit :=
  modify (set_buffers <[b := B]>).

Definition get_geometry (g : nat) : M NativeGeometry :=
  fun s => match geometries s !! g with
           | Some G => (s, Ok G)
           | None => (s, Raise invalid_handle)
           end.

Definition put_geometry (g : nat) (G : NativeGeometry) : M unit :=
  modify (set_geometries <[g := G]>).

(** [buf.map()] *)
Definition map (b : nat) : M unit :=
  B <- get_buffer b ;;
  put_buffer b (mk_Buffer (contents B) (element_type B) true) ;;
  modify (record (map_call b)).

(** [buf.unmap()] *)
Definition unmap (b : nat) : M unit :=
  B <- get_buffer b ;;
  put_buffer b (mk_Buffer (contents B) (element_type B) false) ;;
  modify (record (unmap_call b)).

(** Allocation of a zero-filled float32 buffer of the given shape. *)
Definition new_buffer (sh : list nat) : M nat :=
  fun s =>
    let b := fresh (dom (buffers s)) in
    (set_buffers <[b := mk_Buffer (zeros sh) float32 false]> s, Ok b).

(** Material of a native geometry before any [setMaterial]. *)
Definition initial_material : Material := mk_Material 0 (0, 0, 0)%Q 0.

Definition new_geometry (G : NativeGeometry) : M nat :=
  fun s =>
    let g := fresh (dom (geometries s)) in
    (set_geometries <[g := G]> s, Ok g).

(** [geometry.update()] *)
Definition update (g : nat) : M unit :=
  get_geometry g ;;
  modify (record (update_call g)).

(** [geometry.setMaterial(m)], [geometry.getMaterial()] and the outline
    counterparts. *)
Definition setMaterial (g : nat) (m : Material) : M unit :=
  G <- get_geometry g ;;
  put_geometry g (mk_NativeGeometry (kind G) m (outline_material G) (outline_width G)) ;;
  modify (record (setMaterial_call g)).

Definition getMaterial (g : nat) : M Material :=
  G <- get_geometry g ;; ret (material G).

Definition setOutlineMaterial (g : nat) (m : Material) : M unit :=
  G <- get_geometry g ;;
  put_geometry g (mk_NativeGeometry (kind G) (material G) m (outline_width G)) ;;
  modify (record (setOutlineMaterial_call g)).

Definition setOutlineWidth (g : nat) (w : Q) : M unit :=
  G <- get_geometry g ;;
  put_geometry g (mk_NativeGeometry (kind G) (material G) (outline_material G) w) ;;
  modify (record (setOutlineWidth_call g)).

Definition getOutlineWidth (g : nat) : M Q :=
  G <- get_geometry g ;; ret (outline_width G).

Definition no_attribute (name : string) : exn :=
  AttributeError (String.append "native geometry has no attribute " name).

Definition getPointsBuffer (g : nat) : M nat :=
  G <- get_geometry g ;;
  match kind G with
  | GeometryCylinder p _ _ => ret p
  | _ => raise (no_attribute "getPointsBuffer")
  end.

Definition getRadiusBuffer (g : nat) : M nat :=
  G <- get_geometry g ;;
  match kind G with
  | GeometryCylinder _ r _ => ret r
  | _ => raise (no_attribute "getRadiusBuffer")
  end.

Definition getColorBuffer (g : nat) : M nat :=
  G <- get_geometry g ;;
  match kind G with
  | GeometryCylinder _ _ c => ret c
  | GeometryMesh _ _ c => ret c
  end.

Definition getPositionBuffer (g : nat) : M nat :=
  G <- get_geometry g ;;
  match kind G with
  | GeometryMesh p _ _ => ret p
  | _ => raise (no_attribute "getPositionBuffer")
  end.

Definition getOrientationBuffer (g : nat) : M nat :=
  G <- get_geometry g ;;
  match kind G with
  | GeometryMesh _ o _ => ret o
  | _ => raise (no_attribute "getOrientationBuffer")
  end.

End Backend.

(** ** fresnel/util.py: class [array] *)

(** A Python geometry object, as far as [array] uses it: its native
    handle [self._geometry]. *)
Record Geometry : Type := mk_Geometry { _geometry : nat }.

Module util.

(** [array(buf, geom)]: [geom] is the owning geometry, or [None] if the
    buffer is not associated with a geometry. *)
Record array : Type := mk_array { buf : nat; geom : option Geometry }.

(** [numpy.array(self.buf, copy=False)]: a view of the native memory. *)
Definition numpy_array (b : nat) : M ndarray :=
  B <- Backend.get_buffer b ;; ret (contents B).

(** The effect of [a[slice] = data] on the memory that [a] views: the
    value is converted to the element type of the memory, here for a value
    that is an array of numbers. *)
Definition assign (b : nat) (a : ndarray) (slice : list ix) (data : ndarray) : M unit :=
  B <- Backend.get_buffer b ;;
  a' <- lift (setitem a slice (astype (element_type B) data)) ;;
  Backend.put_buffer b (mk_Buffer a' (element_type B) (mapped B)).

Definition __setitem__ (self : array) (slice : list ix) (data : ndarray) : M unit :=
  Backend.map (buf self) ;;
  a <- numpy_array (buf self) ;;
  assign (buf self) a slice data ;;
  Backend.unmap (buf self) ;;
  match geom self with
  | Some g => Backend.update (_geometry g)
  | None => ret tt
  end.

Definition __getitem__ (self : array) (slice : list ix) : M ndarray :=
  Backend.map (buf self) ;;
  a <- numpy_array (buf self) ;;
  data <- lift (getitem a slice) ;;
  Backend.unmap (buf self) ;;
  ret data.

Definition shape (self : array) : M (list nat) :=
  Backend.map (buf self) ;;
  a <- numpy_array (buf self) ;;
  Backend.unmap (buf self) ;;
  ret (numpy.shape a).

(** [numpy.array(self.buf, copy=False).dtype]: the element type of the
    native memory that the array views. *)
Definition numpy_array_dtype (b : nat) : M dtype :=
  B <- Backend.get_buffer b ;; ret (element_type B).

Definition dtype (self : array) : M dtype :=
  Backend.map (buf self) ;;
  a_dtype <- numpy_array_dtype (buf self) ;;
  Backend.unmap (buf self) ;;
  ret a_dtype.

End util.

(** ** fresnel/material.py (not among the sources) *)

Module material.

(** Modelled from the spec: [material.Material(solid=.., color=..)], the
    constructor of the missing module material.py.  The material collaborator
    "exposes shared material state reachable by proxy"; the value that the
    constructor gives [primitive_color_mix] when it is not passed is not
    visible, so it is the parameter [mix0]. *)
Definition Material (mix0 solid : Q) (color : Q * Q * Q) : Material :=
  mk_Material solid color mix0.

(** Modelled from the spec: the assignment
    [geometry.material.primitive_color_mix = v] through the proxy
    [material._material_proxy(geometry)] of the missing module material.py:
    it changes the material state of this geometry's native handle. *)
Definition set_primitive_color_mix (g : Geometry) (v : Q) : M unit :=
  m <- Backend.getMaterial (_geometry g) ;;
  Backend.setMaterial (_geometry g) (mk_Material (solid m) (color m) v).

End material.

(** ** fresnel/geometry.py *)

(** Points of space as the rows of the [numpy] arrays of the sources. *)
Definition vec3 : Type := Q * Q * Q.

Definition vadd (u v : vec3) : vec3 :=
  let '(a, b, c) := u in let '(x, y, z) := v in (a + x, b + y, c + z)%Q.
Definition vneg (u : vec3) : vec3 :=
  let '(a, b, c) := u in (- a, - b, - c)%Q.
Definition vdiv (u : vec3) (d : Q) : vec3 :=
  let '(a, b, c) := u in (a / d, b / d, c / d)%Q.
Definition vlist (u : vec3) : list Q :=
  let '(a, b, c) := u in [a; b; c].

(** Class [Geometry]: the setters shared by all geometry classes. *)
Module GeometryBase.

Definition set_material (self : Geometry) (mat : Material) : M unit :=
  Backend.setMaterial (_geometry self) mat.

Definition set_outline_material (self : Geometry) (mat : Material) : M unit :=
  Backend.setOutlineMaterial (_geometry self) mat.

Definition set_outline_width (self : Geometry) (width : Q) : M unit :=
  Backend.setOutlineWidth (_geometry self) width.

End GeometryBase.

Module Cylinder.

(** [scene.device.module.GeometryCylinder(scene._scene, N)] *)
Definition GeometryCylinder (N : nat) : M nat :=
  p <- Backend.new_buffer [N; 2; 3]%nat ;;
  r <- Backend.new_buffer [N] ;;
  c <- Backend.new_buffer [N; 2; 3]%nat ;;
  Backend.new_geometry
    (mk_NativeGeometry (GeometryCylinder p r c)
       Backend.initial_material Backend.initial_material 0).

Definition points (self : Geometry) : M util.array :=
  b <- Backend.getPointsBuffer (_geometry self) ;;
  ret (util.mk_array b (Some self)).

Definition radius (self : Geometry) : M util.array :=
  b <- Backend.getRadiusBuffer (_geometry self) ;;
  ret (util.mk_array b (Some self)).

Definition color (self : Geometry) : M util.array :=
  b <- Backend.getColorBuffer (_geometry self) ;;
  ret (util.mk_array b (Some self)).

Definition __init__ (points0 radius0 color0 : option ndarray) (N : option nat)
    (material outline_material : Material) (outline_width : Q) : M Geometry :=
  N <- match N, points0 with
       | Some n, _ => ret n
       | None, Some p => lift (len p)
       | None, None => raise (TypeError "object of type 'NoneType' has no len()")
       end ;;
  g <- GeometryCylinder N ;;
  let self := mk_Geometry g in
  GeometryBase.set_material self material ;;
  GeometryBase.set_outline_material self outline_material ;;
  GeometryBase.set_outline_width self outline_width ;;
  when_Some points0 (fun v => a <- points self ;; util.__setitem__ a [Full] v) ;;
  when_Some radius0 (fun v => a <- radius self ;; util.__setitem__ a [Full] v) ;;
  when_Some color0 (fun v => a <- color self ;; util.__setitem__ a [Full] v) ;;
  modify (set_scene_geometry (fun l => l ++ [g])) ;;
  ret self.

Definition get_extents (self : Geometry) : M ndarray :=
  p <- points self ;; A <- util.__getitem__ p [Full; At 0] ;;
  p <- points self ;; B <- util.__getitem__ p [Full; At 1] ;;
  p <- radius self ;; r <- util.__getitem__ p [Full] ;;
  n <- lift (len r) ;;
  r <- lift (reshape r [n; 1%nat]) ;;
  Amr <- lift (subtract A r) ;; minA <- lift (min0 Amr) ;;
  Bmr <- lift (subtract B r) ;; minB <- lift (min0 Bmr) ;;
  lo <- lift (rbind (stack [minA; minB]) min0) ;;
  Apr <- lift (add A r) ;; maxA <- lift (max0 Apr) ;;
  Bpr <- lift (add B r) ;; maxB <- lift (max0 Bpr) ;;
  hi <- lift (rbind (stack [maxA; maxB]) max0) ;;
  lift (stack [lo; hi]).

End Cylinder.

Module Box.

(** A [Box] object: a [Cylinder] with the attribute [_box]. *)
Record t : Type := mk { cylinder : Geometry; _box : list Q }.

(** The fixed part of the message of the length error; the source appends
    [", you provided box="] and the value. *)
Definition box_length_msg : string :=
  "box must be an array-like of length 1, 3, or 6".

(** The 12 edges of the box.  The source computes them with numpy in
    float64 (int64 for a box of integers); here the arithmetic is exact.
    Without tilt the two agree: every coordinate is [- L / 2] or
    [- L / 2 + L], and halving and this sum are exact in binary floating
    point (short of underflow).  With tilt factors the source's products
    and sums round.  Conversion to float32 happens on assignment to the
    points buffer. *)
Definition _generate_points (box : list Q) : result ndarray :=
  match
    match box with
    | [L] => Some (L, L, L, 0, 0, 0)
    | [Lx; Ly; Lz] => Some (Lx, Ly, Lz, 0, 0, 0)
    | [Lx; Ly; Lz; xy; xz; yz] => Some (Lx, Ly, Lz, xy, xz, yz)
    | _ => None
    end
  with
  | None => Raise (RuntimeError box_length_msg)
  | Some (Lx, Ly, Lz, xy, xz, yz) =>
      (* the columns of box_matrix = [[Lx, xy*Ly, xz*Lz],
                                      [0,  Ly,    yz*Lz],
                                      [0,  0,     Lz]] *)
      let a_1 : vec3 := (Lx, 0, 0) in
      let a_2 : vec3 := (xy * Ly, Ly, 0) in
      let a_3 : vec3 := (xz * Lz, yz * Lz, Lz) in
      let A := vdiv (vneg (vadd (vadd a_1 a_2) a_3)) 2 in
      let B := vadd A a_1 in
      let C := vadd A a_2 in
      let D := vadd A a_3 in
      let E := vadd (vadd A a_1) a_3 in
      let F := vadd (vadd A a_2) a_3 in
      let G := vadd (vadd A a_1) a_2 in
      let H := vadd (vadd (vadd A a_1) a_2) a_3 in
      let box_points :=
        [(A, B); (A, C); (A, D); (B, E); (B, G); (C, G);
         (C, F); (D, E); (D, F); (E, H); (F, H); (G, H)] in
      Ok (mk_nd [length box_points; 2; 3]%nat
                (flat_map (fun e => vlist (fst e) ++ vlist (snd e)) box_points))
  end%Q.

Definition points (self : t) : M util.array :=
  b <- Backend.getPointsBuffer (_geometry (cylinder self)) ;;
  ret (util.mk_array b (Some (cylinder self))).

(** The setter of the property [points]. *)
Definition set_points (self : t) (value : ndarray) : M t :=
  raise (AttributeError
    "'points' attribute should not be set manually. Please set box instead.").

Definition box (self : t) : list Q := _box self.

(** The setter of the property [box].  The source assigns [self._box]
    first; objects are values here, and the object with the new [_box] is
    the result.  When [_generate_points] or the write raises there is no
    result: in the source the caller's object then already has the new
    [_box], [mk (cylinder self) box], next to the points of the old one. *)
Definition set_box (self : t) (box : list Q) : M t :=
  let self := mk (cylinder self) box in
  pts <- lift (_generate_points (_box self)) ;;
  a <- points self ;;
  util.__setitem__ a [Full] pts ;;
  ret self.

Definition __init__ (mix0 : Q) (box : list Q) (radius color : option ndarray)
  : M t :=
  c <- Cylinder.__init__ None None None (Some 12%nat)
         (material.Material mix0 1 (1, 0, 1)%Q)
         (material.Material mix0 1 (0, 0, 0)%Q) 0 ;;
  let self := mk c box in
  pts <- lift (_generate_points box) ;;
  a <- points self ;;
  util.__setitem__ a [Full] pts ;;
  match radius with
  | Some r => a <- Cylinder.radius c ;; util.__setitem__ a [Full] r
  | None => a <- Cylinder.radius c ;; util.__setitem__ a [Full] (vector [1 # 2])
  end ;;
  match color with
  | Some v =>
      a <- Cylinder.color c ;; util.__setitem__ a [Full] v ;;
      material.set_primitive_color_mix c 1
  | None => ret tt
  end ;;
  ret self.

End Box.

Module Mesh.

(** A [Mesh] object: a geometry with the attribute [vertices]. *)
Record t : Type := mk { geometry : Geometry; vertices : ndarray }.

(** [scene.device.module.GeometryMesh(scene._scene, vertices, N)] *)
Definition GeometryMesh (vertices : ndarray) (N : nat) : M nat :=
  nv <- lift (len vertices) ;;
  p <- Backend.new_buffer [N; 3]%nat ;;
  o <- Backend.new_buffer [N; 4]%nat ;;
  c <- Backend.new_buffer [nv; 3]%nat ;;
  Backend.new_geometry
    (mk_NativeGeometry (GeometryMesh p o c)
       Backend.initial_material Backend.initial_material 0).

Definition position (self : t) : M util.array :=
  b <- Backend.getPositionBuffer (_geometry (geometry self)) ;;
  ret (util.mk_array b (Some (geometry self))).

Definition orientation (self : t) : M util.array :=
  b <- Backend.getOrientationBuffer (_geometry (geometry self)) ;;
  ret (util.mk_array b (Some (geometry self))).

Definition color (self : t) : M util.array :=
  b <- Backend.getColorBuffer (_geometry (geometry self)) ;;
  ret (util.mk_array b (Some (geometry self))).

Definition __init__ (vertices0 : ndarray) (position0 orientation0 color0 : option ndarray)
    (N : option nat) (material outline_material : Material) (outline_width : Q)
  : M t :=
  N <- match N, position0 with
       | Some n, _ => ret n
       | None, Some p => lift (len p)
       | None, None => raise (TypeError "object of type 'NoneType' has no len()")
       end ;;
  let vertices := astype float32 vertices0 in
  g <- GeometryMesh vertices N ;;
  let self := mk (mk_Geometry g) vertices in
  GeometryBase.set_material (geometry self) material ;;
  GeometryBase.set_outline_material (geometry self) outline_material ;;
  GeometryBase.set_outline_width (geometry self) outline_width ;;
  when_Some position0 (fun v => a <- position self ;; util.__setitem__ a [Full] v) ;;
  match orientation0 with
  | Some v => a <- orientation self ;; util.__setitem__ a [Full] v
  | None => a <- orientation self ;; util.__setitem__ a [Full] (vector [1; 0; 0; 0]%Q)
  end ;;
  when_Some color0 (fun v => a <- color self ;; util.__setitem__ a [Full] v) ;;
  modify (set_scene_geometry (fun l => l ++ [g])) ;;
  ret self.

Definition get_extents (self : t) : M ndarray :=
  a <- lift (getitem (vertices self) [Full; At 0]) ;;
  b <- lift (getitem (vertices self) [Full; At 1]) ;;
  c <- lift (getitem (vertices self) [Full; At 2]) ;;
  mina <- lift (min0 a) ;; minb <- lift (min0 b) ;; minc <- lift (min0 c) ;;
  r0 <- lift (rbind (stack [mina; minb; minc]) min0) ;;
  maxa <- lift (max0 a) ;; maxb <- lift (max0 b) ;; maxc <- lift (max0 c) ;;
  r1 <- lift (rbind (stack [maxa; maxb; maxc]) max0) ;;
  r <- lift (stack [r0; r1]) ;;
  p <- position self ;; pos <- util.__getitem__ p [Full] ;;
  r_0 <- lift (getitem r [At 0]) ;;
  lo <- lift (rbind (add pos r_0) min0) ;;
  r_1 <- lift (getitem r [At 1]) ;;
  hi <- lift (rbind (add pos r_1) max0) ;;
  lift (stack [lo; hi]).

End Mesh.

(** ** Vocabulary of the specification *)

Definition empty_state : State := mk_State ∅ ∅ [] [].

(** The calls the backend received between state [s] and a later [s']. *)
Definition issued (s s' : State) : list call := drop (length (log s)) (log s').

(** The geometry handles that received [update()], in order. *)
Definition updates (calls : list call) : list nat :=
  omap (fun c => match c with update_call g => Some g | _ => None end) calls.

Definition is_map_call (c : call) : bool :=
  match c with map_call _ => true | _ => false end.

(** [scoped b h calls]: starting with buffer [b] mapped iff [h], every
    [map()] of [b] in [calls] happens while it is unmapped and is followed
    by an [unmap()], and [b] ends unmapped. *)
Fixpoint scoped (b : nat) (h : bool) (calls : list call) : bool :=
  match calls with
  | [] => negb h
  | map_call b' :: r =>
      if decide (b' = b) then negb h && scoped b true r else scoped b h r
  | unmap_call b' :: r =>
      if decide (b' = b) then h && scoped b false r else scoped b h r
  | _ :: r => scoped b h r
  end.

(** Whether buffer [b] is mapped in state [s]. *)
Definition is_mapped (b : nat) (s : State) : option bool :=
  mapped <$> buffers s !! b.

(** Contents of buffer [b] in state [s]. *)
Definition buffer_contents (b : nat) (s : State) : option ndarray :=
  contents <$> buffers s !! b.

(** The four operations of a buffer view. *)
Inductive operation : Type :=
| get (slice : list ix)
| set (slice : list ix) (data : ndarray)
| shape_query
| dtype_query.

Definition perform (self : util.array) (o : operation) : M unit :=
  match o with
  | get slice => _ <- util.__getitem__ self slice ;; ret tt
  | set slice data => util.__setitem__ self slice data
  | shape_query => _ <- util.shape self ;; ret tt
  | dtype_query => _ <- util.dtype self ;; ret tt
  end.

(** Performing [o] from [s] leaves the buffer of the view released: its
    maps are matched by unmaps and it is unmapped at exit. *)
Definition releases (self : util.array) (o : operation) (s : State) : Prop :=
  let s' := fst (perform self o s) in
  log s' = log s ++ issued s s' /\
  scoped (util.buf self) false (issued s s') = true /\
  is_mapped (util.buf self) s' = Some false.

(** States reached inside and after a map scope of buffer [b]. *)
Definition held (b : nat) (B : Buffer) (s : State) : State :=
  mk_State (<[b := mk_Buffer (contents B) (element_type B) true]> (buffers s))
    (geometries s) (scene_geometry s) (log s ++ [map_call b]).

Definition released (b : nat) (a : ndarray) (B : Buffer) (s : State) : State :=
  mk_State (<[b := mk_Buffer a (element_type B) false]> (buffers s))
    (geometries s) (scene_geometry s) (log s ++ [map_call b; unmap_call b]).

(** A state with one standalone buffer of two elements (handle 0), and a
    view of it that has no geometry. *)
Definition standalone_state : State :=
  mk_State {[ 0%nat := mk_Buffer (vector [1; 2]%Q) float32 false ]} ∅ [] [].
Definition standalone_view : util.array := util.mk_array 0 None.


(** *** Allocation of a cylinder geometry *)

Definition zero_buffer (sh : list nat) : Buffer := mk_Buffer (zeros sh) float32 false.

(** The handles that [GeometryCylinder] allocates in state [s]: the points,
    radius and color buffers and the geometry. *)
Definition points_handle (s : State) : nat := fresh (dom (buffers s)).
Definition radius_handle (N : nat) (s : State) : nat :=
  fresh (dom (<[points_handle s := zero_buffer [N; 2; 3]%nat]> (buffers s))).
Definition color_handle (N : nat) (s : State) : nat :=
  fresh (dom (<[radius_handle N s := zero_buffer [N]]>
               (<[points_handle s := zero_buffer [N; 2; 3]%nat]> (buffers s)))).
Definition geometry_handle (s : State) : nat := fresh (dom (geometries s)).

(** The state after [Cylinder.__init__] with no attribute given. *)
Definition cylinder_allocated (N : nat) (mat omat : Material) (w : Q) (s : State)
  : State :=
  let p := points_handle s in
  let r := radius_handle N s in
  let c := color_handle N s in
  let g := geometry_handle s in
  mk_State
    (<[c := zero_buffer [N; 2; 3]%nat]>
       (<[r := zero_buffer [N]]> (<[p := zero_buffer [N; 2; 3]%nat]> (buffers s))))
    (<[g := mk_NativeGeometry (GeometryCylinder p r c) mat omat w]> (geometries s))
    (scene_geometry s ++ [g])
    (log s ++ [setMaterial_call g; setOutlineMaterial_call g; setOutlineWidth_call g]).

(** The state after a completed write of [a] through a view of buffer
    [b] that belongs to geometry [g]. *)
Definition written (g b : nat) (a : ndarray) (s : State) : State :=
  match buffers s !! b with
  | Some B => record (update_call g) (released b a B s)
  | None => s
  end.


(** The state after [geometry.material.primitive_color_mix = v]. *)
Definition with_color_mix (g : nat) (v : Q) (s : State) : State :=
  match geometries s !! g with
  | Some G =>
      mk_State (buffers s)
        (<[g := mk_NativeGeometry (kind G)
                  (mk_Material (solid (material G)) (color (material G)) v)
                  (outline_material G) (outline_width G)]> (geometries s))
        (scene_geometry s) (log s ++ [setMaterial_call g])
  | None => s
  end.

(** The state in which [Box.__init__] starts filling the buffers. *)
Definition box_allocated (mix0 : Q) (s : State) : State :=
  cylinder_allocated 12 (material.Material mix0 1 (1, 0, 1)%Q)
    (material.Material mix0 1 (0, 0, 0)%Q) 0 s.

(** The attribute buffers of a cylinder geometry, read off the state. *)
Definition attribute (sel : GeometryKind -> option nat) (g : Geometry) (s : State)
  : option ndarray :=
  G ← geometries s !! _geometry g; b ← sel (kind G); buffer_contents b s.

Definition points_of : Geometry -> State -> option ndarray :=
  attribute (fun k => match k with GeometryCylinder p _ _ => Some p | _ => None end).
Definition radius_of : Geometry -> State -> option ndarray :=
  attribute (fun k => match k with GeometryCylinder _ r _ => Some r | _ => None end).
Definition color_of : Geometry -> State -> option ndarray :=
  attribute (fun k => match k with GeometryCylinder _ _ c => Some c | GeometryMesh _ _ c => Some c end).

(** The material state of a geometry, read off the state. *)
Definition material_of (g : Geometry) (s : State) : option Material :=
  material <$> geometries s !! _geometry g.


(** *** Boxes *)

(** The lengths of the [box] parameter that [Box] accepts. *)
Definition accepted_length (n : nat) : bool :=
  (n =? 1)%nat || (n =? 3)%nat || (n =? 6)%nat.

(** A [Box] object in a state where its native geometry is a cylinder
    geometry whose points buffer holds 12 point pairs of float32 and is
    distinct from its radius and color buffers. *)
Definition Box_valid (self : Box.t) (s : State) : Prop :=
  exists G p r c B,
    geometries s !! _geometry (Box.cylinder self) = Some G /\
    kind G = GeometryCylinder p r c /\ p <> r /\ p <> c /\
    buffers s !! p = Some B /\ numpy.shape (contents B) = [12; 2; 3]%nat /\
    element_type B = float32.


(** The box of side 2 constructed in the empty scene, with the default
    radius and no color. *)
Definition cube_state : State :=
  fst (Box.__init__ 0 [2; 2; 2]%Q None None empty_state).
Definition cube : Box.t := Box.mk (mk_Geometry 0) [2; 2; 2]%Q.


(** The point pairs held by a points buffer of shape (N, 2, 3): one pair
    of endpoints per edge. *)
Definition edges (a : ndarray) : list (list Q * list Q) :=
  (fun e => (take 3 e, drop 3 e)) <$> chunks 6 (hd 0%nat (numpy.shape a)) (flat a).

(** The two endpoints of every edge, in order. *)
Definition endpoints (a : ndarray) : list (list Q) :=
  flat_map (fun e => [fst e; snd e]) (edges a).

(** Equality of points, as rationals. *)
Definition same_point (u v : list Q) : bool :=
  (length u =? length v)%nat && forallb (fun xy => Qeq_bool (fst xy) (snd xy)) (zip u v).

(** Edge [e] has corner [c] as one of its endpoints. *)
Definition touches (c : list Q) (e : list Q * list Q) : bool :=
  same_point c (fst e) || same_point c (snd e).

(** The 8 corners of the cube [-1, 1]^3. *)
Definition cube_corners : list (list Q) :=
  x ← [-1; 1]%Q; y ← [-1; 1]%Q; z ← [-1; 1]%Q; [[x; y; z]].


(** Edge [i] of a points buffer read off the state. *)
Definition edge_at (i : nat) (o : option ndarray) : option (list Q * list Q) :=
  a ← o; edges a !! i.


(** *** Cylinders *)

(** The elements of a points buffer that holds the endpoint pairs [ps]. *)
Definition encode (ps : list (vec3 * vec3)) : list Q :=
  flat_map (fun e => vlist (fst e) ++ vlist (snd e)) ps.

(** Geometry [g] is a cylinder geometry in state [s] whose points buffer
    holds the endpoint pairs [ps] and whose radius buffer holds [rs], one
    radius per cylinder. *)
Definition holds_cylinders (g : Geometry) (s : State)
    (ps : list (vec3 * vec3)) (rs : list Q) : Prop :=
  exists G p r c Bp Br,
    geometries s !! _geometry g = Some G /\ kind G = GeometryCylinder p r c /\
    buffers s !! p = Some Bp /\ buffers s !! r = Some Br /\
    contents Bp = mk_nd [length ps; 2; 3]%nat (encode ps) /\
    contents Br = mk_nd [length rs] rs /\
    length ps = length rs.

(** Coordinate [k] (0, 1 or 2) of a point. *)
Definition coord (k : nat) (v : vec3) : Q := nth k (vlist v) 0%Q.


(** [m] is an element of [l] (up to equality of rationals) that is
    [R]-related to every element of [l]. *)
Definition is_extreme (R : Q -> Q -> Prop) (m : Q) (l : list Q) : Prop :=
  (exists x, x ∈ l /\ (m == x)%Q) /\ forall x, x ∈ l -> R m x.

(** [m] is the least (greatest) element of [l]. *)
Definition is_minimum : Q -> list Q -> Prop := is_extreme Qle.
Definition is_maximum : Q -> list Q -> Prop := is_extreme (fun m x => (x <= m)%Q).

(** Componentwise operations on points. *)
Definition vmap2 (f : Q -> Q -> Q) (u v : vec3) : vec3 :=
  let '(a, b, c) := u in let '(x, y, z) := v in (f a x, f b y, f c z).
Definition vshift (f : Q -> Q -> Q) (u : vec3) (r : Q) : vec3 :=
  let '(a, b, c) := u in (f a r, f b r, f c r).



(** The array of shape (N, 3) whose rows are the points [vs]. *)
Definition vecs (vs : list vec3) : ndarray :=
  mk_nd [length vs; 3]%nat (flat_map vlist vs).


(** Componentwise reduction of a non-empty list of points. *)
Definition extreme (f : Q -> Q -> Q) (vs : list vec3) : vec3 :=
  match vs with
  | v :: vs' => foldl (vmap2 f) v vs'
  | [] => (0, 0, 0)%Q
  end.



(** [get_extents] of cylinder geometry [g] in state [s] is guarded
    against an empty reduction: it does not end in numpy's failure of a
    reduction over a zero-size array. *)
Definition guarded (g : Geometry) (s : State) : Prop :=
  forall op, snd (Cylinder.get_extents g s) <> Raise (ValueError (zero_size_msg op)).

(** A Cylinder geometry of N = 0 cylinders, constructed in the empty
    scene. *)
Definition nothing_program : M Geometry :=
  Cylinder.__init__ None None None (Some 0%nat)
    (material.Material 0 1 (1, 0, 1)%Q) (material.Material 0 1 (0, 0, 0)%Q) 0.
Definition nothing_state : State := fst (nothing_program empty_state).
Definition nothing : Geometry := mk_Geometry 0.

(** *** Meshes *)

(** One triangle (0,0,0), (1,0,0), (0,2,0) with a single instance at the
    origin, constructed in the empty scene. *)
Definition triangle_vertices : ndarray :=
  mk_nd [3; 3]%nat [0; 0; 0; 1; 0; 0; 0; 2; 0]%Q.
Definition triangle_program : M Mesh.t :=
  Mesh.__init__ triangle_vertices (Some (mk_nd [1; 3]%nat [0; 0; 0]%Q)) None None None
    (material.Material 0 1 (1, 0, 1)%Q) (material.Material 0 1 (0, 0, 0)%Q) 0.

(** The view of the radius buffer of [cube] (buffer 1 of geometry 0). *)
Definition cube_radius : util.array := util.mk_array 1 (Some (Box.cylinder cube)).


(** *** Further vocabulary for buffer views *)

(** The buffer of the view exists, and so does the native geometry that
    the view notifies, when it has one. *)
Definition live_view (self : util.array) (s : State) : Prop :=
  is_Some (buffers s !! util.buf self) /\
  match util.geom self with
  | Some g => is_Some (geometries s !! _geometry g)
  | None => True
  end.

(** The operations of a view that only read. *)
Definition is_read (o : operation) : bool :=
  match o with set _ _ => false | _ => true end.

(** Nothing but the mapped flags and the log differs between [s] and
    [s']: same buffers with the same contents and element types, same
    geometries, same scene. *)
Definition same_data (s s' : State) : Prop :=
  (forall b, buffer_contents b s' = buffer_contents b s) /\
  (forall b, element_type <$> buffers s' !! b = element_type <$> buffers s !! b) /\
  geometries s' = geometries s /\
  scene_geometry s' = scene_geometry s.


(** *** Further vocabulary for boxes *)

(** Equality of lists of points, as rationals. *)
Definition points_equal (u v : list (list Q)) : Prop := Forall2 (Forall2 Qeq) u v.

(** The vector from the first to the second endpoint of every edge. *)
Definition edge_vectors (a : ndarray) : list (list Q) :=
  (fun e => zip_with Qminus (snd e) (fst e)) <$> edges a.

(** The sum of coordinate [k] over a list of points. *)
Definition axis_sum (k : nat) (ps : list (list Q)) : Q :=
  foldr Qplus 0%Q ((fun p => nth k p 0%Q) <$> ps).

(** The signs of the corners A..H of a box, and the corners that the 12
    edges join, in the order of [box_points]. *)
Definition corner_signs : list (list Q) :=
  let A := [-1; -1; -1]%Q in let B := [1; -1; -1]%Q in
  let C := [-1; 1; -1]%Q in let D := [-1; -1; 1]%Q in
  let E := [1; -1; 1]%Q in let F := [-1; 1; 1]%Q in
  let G := [1; 1; -1]%Q in let H := [1; 1; 1]%Q in
  [A; B; A; C; A; D; B; E; B; G; C; G; C; F; D; E; D; F; E; H; F; H; G; H].

(** *** Further vocabulary for constructors *)

(** [m] never changes the list of geometries of the scene. *)
Definition keeps_scene {A} (m : M A) : Prop :=
  forall s, scene_geometry (fst (m s)) = scene_geometry s.

(** [m] appends the native handle of the object it returns to the
    geometries of the scene when it returns, and leaves the scene as it was
    when it raises. *)
Definition joins_scene_on_return {A} (handle : A -> nat) (m : M A) : Prop :=
  forall s,
    match m s with
    | (s', Ok a) => scene_geometry s' = scene_geometry s ++ [handle a]
    | (s', Raise _) => scene_geometry s' = scene_geometry s
    end.

(** The state in which [Cylinder.__init__] starts writing the attributes
    it was given: the buffers and the geometry are allocated and the
    materials and the outline width are set, but the geometry is not in
    the scene yet. *)
Definition cylinder_created (N : nat) (mat omat : Material) (w : Q) (s : State)
  : State :=
  let p := points_handle s in
  let r := radius_handle N s in
  let c := color_handle N s in
  let g := geometry_handle s in
  mk_State
    (<[c := zero_buffer [N; 2; 3]%nat]>
       (<[r := zero_buffer [N]]> (<[p := zero_buffer [N; 2; 3]%nat]> (buffers s))))
    (<[g := mk_NativeGeometry (GeometryCylinder p r c) mat omat w]> (geometries s))
    (scene_geometry s)
    (log s ++ [setMaterial_call g; setOutlineMaterial_call g; setOutlineWidth_call g]).



(** *** Further vocabulary for meshes *)





(** A [Mesh] object whose template [vertices] are the points [ws], in a
    state where its native geometry is a mesh geometry whose position
    buffer holds the points [vs], one per instance. *)
Definition holds_mesh (self : Mesh.t) (s : State) (ws vs : list vec3) : Prop :=
  Mesh.vertices self = vecs ws /\
  exists G p o c Bp,
    geometries s !! _geometry (Mesh.geometry self) = Some G /\
    kind G = GeometryMesh p o c /\
    buffers s !! p = Some Bp /\ contents Bp = vecs vs.

(** All the coordinates of the points [ws], of all three axes. *)
Definition coordinates (ws : list vec3) : list Q := flat_map vlist ws.

(** The reduction of coordinate [k] of the points [ws] with [f]. *)
Definition column_extreme (f : Q -> Q -> Q) (k : nat) (ws : list vec3) : Q :=
  match ws with
  | w :: ws' => foldl f (coord k w) (coord k <$> ws')
  | [] => 0%Q
  end.

(** The number that [Mesh.get_extents] reduces the template to: the three
    column reductions, reduced once more. *)
Definition template_extreme (f : Q -> Q -> Q) (ws : list vec3) : Q :=
  f (f (column_extreme f 0 ws) (column_extreme f 1 ws)) (column_extreme f 2 ws).

(** The bound that [Mesh.get_extents] computes from the template [ws] and
    the positions [vs] with the reduction [f]: the float32 sums of the
    positions and the number reduced from the template, reduced. *)
Definition mesh_bound (f : Q -> Q -> Q) (ws vs : list vec3) : vec3 :=
  extreme f ((fun v => vshift add32 v (template_extreme f ws)) <$> vs).

(** The mesh of [triangle_program], constructed in the empty scene. *)
Definition triangle_state : State := fst (triangle_program empty_state).
Definition triangle : Mesh.t := Mesh.mk (mk_Geometry 0) triangle_vertices.

(** *** The extents in exact arithmetic *)



(** *** Points rounded to float32 *)


(** *** The anatomy of the rounding to float32 *)

(** The integer nearest to a rational, ties to the even one. *)
Definition nearest (y : Q) : Z := round_half_even (Qnum y) (Zpos (Qden y)).

(** The binade of a positive rational [x], i.e. the exponent [e] with
    2^e <= x < 2^(e+1), and the exponent of the last place of the float32
    values of this binade. *)
Definition binade (x : Q) : Z := floor_log2 (Z.abs (Qnum x)) (Zpos (Qden x)).
Definition ulp_exponent (x : Q) : Z := (Z.max (binade x) (-126) - 23)%Z.

(** * Properties *)

(** ** Rounding to float32 preserves the order *)

Lemma round_half_even_mono a1 b1 a2 b2 :
  (0 < b1)%Z → (0 < b2)%Z → (a1 * b2 <= a2 * b1)%Z →
  (round_half_even a1 b1 <= round_half_even a2 b2)%Z.
Proof.
  intros Hb1 Hb2 Hle. unfold round_half_even.
  pose proof (Z.div_mod a1 b1 ltac:(lia)) as H1.
  pose proof (Z.div_mod a2 b2 ltac:(lia)) as H2.
  pose proof (Z.mod_pos_bound a1 b1 Hb1) as R1.
  pose proof (Z.mod_pos_bound a2 b2 Hb2) as R2.
  set (q1 := (a1 / b1)%Z) in *. set (q2 := (a2 / b2)%Z) in *.
  set (r1 := (a1 mod b1)%Z) in *. set (r2 := (a2 mod b2)%Z) in *.
  clearbody q1 q2 r1 r2.
  assert (Hq : (q1 <= q2)%Z).
  { destruct (Z_le_gt_dec q1 q2) as [|Hgt]; [done|]. exfalso.
    assert ((q2 + 1) * b2 * b1 <= q1 * b1 * b2)%Z by nia.
    assert (a2 * b1 < (q2 + 1) * b2 * b1)%Z by nia.
    assert (q1 * b1 * b2 <= a1 * b2)%Z by nia.
    lia. }
  destruct (Z.eq_dec q1 q2) as [Heq|Hne].
  - assert (Hr : (r1 * b2 <= r2 * b1)%Z) by (subst a1 a2 q2; nia).
    rewrite <- Heq.
    destruct (Z.compare_spec (2 * r1) b1) as [E1|E1|E1],
             (Z.compare_spec (2 * r2) b2) as [E2|E2|E2];
      try (destruct (Z.even q1)); try lia; exfalso; nia.
  - assert (q1 + 1 <= q2)%Z by lia.
    destruct (2 * r1 ?= b1)%Z, (2 * r2 ?= b2)%Z;
      try (destruct (Z.even q1)); try (destruct (Z.even q2)); lia.
Qed.

Lemma round_half_even_ext a1 b1 a2 b2 :
  (0 < b1)%Z → (0 < b2)%Z → (a1 * b2 = a2 * b1)%Z →
  round_half_even a1 b1 = round_half_even a2 b2.
Proof.
  intros Hb1 Hb2 H. apply Z.le_antisymm; apply round_half_even_mono; lia.
Qed.

Lemma round_half_even_integer k b :
  (0 < b)%Z → round_half_even (k * b) b = k.
Proof.
  intros Hb. unfold round_half_even.
  rewrite Z.div_mul by lia. rewrite Z.mod_mul by lia.
  destruct (Z.compare_spec (2 * 0) b); lia.
Qed.

Lemma nearest_mono y1 y2 : (y1 <= y2)%Q → (nearest y1 <= nearest y2)%Z.
Proof. intros H. apply round_half_even_mono; try done. Qed.

Lemma nearest_integer k : nearest (inject_Z k) = k.
Proof.
  unfold nearest. simpl.
  rewrite <- (round_half_even_integer k 1) at 2; [|done]. by rewrite Z.mul_1_r.
Qed.

Lemma nearest_fraction a b y :
  (0 < b)%Z → (y == inject_Z a / inject_Z b)%Q → round_half_even a b = nearest y.
Proof.
  intros Hb Hy. unfold nearest. apply round_half_even_ext; [done..|].
  assert (Hy' : (y * inject_Z b == inject_Z a)%Q).
  { rewrite Hy. field. intros H0. unfold Qeq in H0. simpl in H0. lia. }
  unfold Qeq in Hy'. simpl in Hy'. lia.
Qed.

Lemma pow2_pos z : (0 < 2 ^ z)%Q.
Proof. by apply Qpower_0_lt. Qed.

Lemma pow2_add a b : (2 ^ (a + b) == 2 ^ a * 2 ^ b)%Q.
Proof. by apply Qpower_plus. Qed.

Lemma pow2_Z k : (0 <= k)%Z → (inject_Z (2 ^ k) == 2 ^ k)%Q.
Proof. intros. by rewrite Zpower_Qpower. Qed.

Lemma pow2_le a b : (a <= b)%Z → (2 ^ a <= 2 ^ b)%Q.
Proof. intros. by apply Qpower_le_compat_l. Qed.

Lemma pow2_opp a : (2 ^ a * 2 ^ (- a) == 1)%Q.
Proof. rewrite <- pow2_add, Z.add_opp_diag_r. reflexivity. Qed.

Lemma floor_log2_test n d k :
  (if (0 <=? k)%Z then (d * 2 ^ k <=? n)%Z else (d <=? n * 2 ^ (- k))%Z) = true
  ↔ (2 ^ k * inject_Z d <= inject_Z n)%Q.
Proof.
  destruct (Z.leb_spec 0 k) as [Hk|Hk].
  - rewrite Z.leb_le, Zle_Qle, inject_Z_mult, pow2_Z by done.
    by rewrite Qmult_comm.
  - rewrite Z.leb_le, Zle_Qle, inject_Z_mult, pow2_Z by lia.
    split; intros H.
    + apply (Qmult_le_l _ _ (2 ^ (- k))); [apply pow2_pos|].
      rewrite Qmult_assoc, (Qmult_comm (2 ^ (- k))), pow2_opp, Qmult_1_l.
      by rewrite Qmult_comm.
    + apply (Qmult_le_l _ _ (2 ^ (- k))) in H; [|apply pow2_pos].
      rewrite Qmult_assoc, (Qmult_comm (2 ^ (- k))), pow2_opp, Qmult_1_l in H.
      by rewrite Qmult_comm in H.
Qed.

Lemma floor_log2_spec n d :
  (0 < n)%Z → (0 < d)%Z →
  (2 ^ floor_log2 n d * inject_Z d <= inject_Z n)%Q ∧
  (inject_Z n < 2 ^ (floor_log2 n d + 1) * inject_Z d)%Q.
Proof.
  intros Hn Hd.
  destruct (Z.log2_spec n Hn) as [Ln1 Ln2], (Z.log2_spec d Hd) as [Ld1 Ld2].
  pose proof (Z.log2_nonneg n) as Ln0. pose proof (Z.log2_nonneg d) as Ld0.
  assert (Hfl : floor_log2 n d
                = let k := (Z.log2 n - Z.log2 d)%Z in
                  if (if (0 <=? k)%Z then (d * 2 ^ k <=? n)%Z else (d <=? n * 2 ^ (- k))%Z)
                  then k else (k - 1)%Z).
  { unfold floor_log2. cbv zeta. by destruct (0 <=? Z.log2 n - Z.log2 d)%Z. }
  rewrite Hfl. clear Hfl. cbv zeta.
  set (ln := Z.log2 n) in *. set (ld := Z.log2 d) in *. clearbody ln ld.
  set (k := (ln - ld)%Z).
  rewrite Zle_Qle, pow2_Z in Ln1, Ld1 by done.
  rewrite Zlt_Qlt, pow2_Z in Ln2, Ld2 by lia.
  assert (Hlo : (2 ^ (k - 1) * inject_Z d < inject_Z n)%Q).
  { apply Qlt_le_trans with (2 ^ (k - 1) * 2 ^ Z.succ ld)%Q.
    - by apply Qmult_lt_l; [apply pow2_pos|].
    - rewrite <- pow2_add. by replace (k - 1 + Z.succ ld)%Z with ln by lia. }
  assert (Hhi : (inject_Z n < 2 ^ (k + 1) * inject_Z d)%Q).
  { apply Qlt_le_trans with (2 ^ (k + 1) * 2 ^ ld)%Q.
    - rewrite <- pow2_add. by replace (k + 1 + ld)%Z with (Z.succ ln) by lia.
    - by apply Qmult_le_l; [apply pow2_pos|]. }
  pose proof (floor_log2_test n d k) as Ht.
  destruct (if (0 <=? k)%Z then (d * 2 ^ k <=? n)%Z else (d <=? n * 2 ^ (- k))%Z).
  - split; [by apply Ht|done].
  - split; [by apply Qlt_le_weak|].
    replace (k - 1 + 1)%Z with k by lia.
    apply Qnot_le_lt. intros H. apply Ht in H. done.
Qed.

Lemma Qnum_pos x : (0 < x)%Q → (0 < Qnum x)%Z.
Proof. unfold Qlt. simpl. lia. Qed.

Lemma inject_Z_pos_nonzero p : ¬ (inject_Z (Zpos p) == 0)%Q.
Proof. unfold Qeq. simpl. lia. Qed.

Lemma pow2_nonzero z : ¬ (2 ^ z == 0)%Q.
Proof. by apply Qpower_not_0. Qed.

Lemma binade_spec x :
  (0 < x)%Q → (2 ^ binade x <= x)%Q ∧ (x < 2 ^ (binade x + 1))%Q.
Proof.
  intros Hx. pose proof (Qnum_pos x Hx) as Hn.
  destruct (floor_log2_spec (Qnum x) (Zpos (Qden x)) Hn eq_refl) as [H1 H2].
  unfold binade. rewrite Z.abs_eq by lia.
  set (E := floor_log2 (Qnum x) (Z.pos (Qden x))) in *. clearbody E.
  assert (Hxd : (x == inject_Z (Qnum x) / inject_Z (Zpos (Qden x)))%Q)
    by (destruct x; apply Qmake_Qdiv).
  assert (Hd : (0 < inject_Z (Zpos (Qden x)))%Q) by done.
  split.
  - rewrite Hxd. apply Qle_shift_div_l; done.
  - rewrite Hxd. apply Qlt_shift_div_r; done.
Qed.

Lemma to_float32_positive x :
  (0 < x)%Q →
  (to_float32 x == inject_Z (nearest (x / 2 ^ ulp_exponent x)) * 2 ^ ulp_exponent x)%Q.
Proof.
  intros Hx. pose proof (Qnum_pos x Hx) as Hn.
  unfold to_float32, ulp_exponent, binade. cbv zeta.
  rewrite Z.abs_eq by lia.
  destruct (Z.eqb_spec (Qnum x) 0) as [|_]; [lia|].
  destruct (Z.ltb_spec (Qnum x) 0) as [|_]; [lia|].
  set (q := (Z.max (floor_log2 (Qnum x) (Z.pos (Qden x))) (-126) - 23)%Z).
  clearbody q.
  assert (Hxd : (x == inject_Z (Qnum x) / inject_Z (Zpos (Qden x)))%Q)
    by (destruct x; apply Qmake_Qdiv).
  destruct (Z.leb_spec 0 q) as [Hq|Hq].
  - rewrite inject_Z_mult, pow2_Z by done.
    rewrite (nearest_fraction (Qnum x) (Z.pos (Qden x) * 2 ^ q) (x / 2 ^ q)); [done|lia|].
    rewrite inject_Z_mult, pow2_Z by done. rewrite Hxd at 1.
    field; repeat split; first [apply pow2_nonzero|apply inject_Z_pos_nonzero].
  - rewrite Qred_correct.
    assert (Hp : (0 < 2 ^ (- q))%Z) by (apply Z.pow_pos_nonneg; lia).
    rewrite (nearest_fraction (Qnum x * 2 ^ (- q)) (Z.pos (Qden x)) (x / 2 ^ q)); [|done|].
    + rewrite Qmake_Qdiv, Z2Pos.id, pow2_Z by lia.
      unfold Qdiv. apply Qmult_comp; [done|].
      rewrite <- Qpower_opp. by rewrite Z.opp_involutive.
    + rewrite inject_Z_mult, pow2_Z by lia. rewrite Hxd at 1.
      rewrite (Qpower_opp 2 q).
      field; repeat split; first [apply pow2_nonzero|apply inject_Z_pos_nonzero].
Qed.

Lemma nearest_nonneg y : (0 <= y)%Q → (0 <= nearest y)%Z.
Proof. intros H. rewrite <- (nearest_integer 0%Z). by apply nearest_mono. Qed.

Lemma to_float32_zero x : Qnum x = 0%Z → to_float32 x = 0%Q.
Proof. intros H. unfold to_float32. by rewrite H. Qed.

Lemma to_float32_nonneg x : (0 <= x)%Q → (0 <= to_float32 x)%Q.
Proof.
  intros Hx. destruct (Z.eq_dec (Qnum x) 0%Z) as [H0|H0].
  - by rewrite to_float32_zero.
  - assert (Hpos : (0 < x)%Q) by (unfold Qle, Qlt in *; simpl in *; lia).
    rewrite (to_float32_positive x Hpos).
    apply Qmult_le_0_compat; [|apply Qlt_le_weak, pow2_pos].
    change 0%Q with (inject_Z 0). rewrite <- Zle_Qle. apply nearest_nonneg.
    apply Qle_shift_div_l; [apply pow2_pos|]. by rewrite Qmult_0_l.
Qed.

Lemma to_float32_opp x : (to_float32 (- x) == - to_float32 x)%Q.
Proof.
  destruct x as [n d]. unfold to_float32. cbn [Qnum Qden Qopp]. rewrite Z.abs_opp.
  destruct (Z.eqb_spec (Z.abs n) 0%Z) as [|Hn]; [done|].
  destruct (Z.ltb_spec (- n) 0%Z), (Z.ltb_spec n 0%Z); try lia; try done.
  by rewrite Qopp_involutive.
Qed.

Lemma scaled_below x e :
  (x < 2 ^ (e + 1))%Q → (nearest (x / 2 ^ (e - 23)) <= 2 ^ 24)%Z.
Proof.
  intros Hx. rewrite <- (nearest_integer (2 ^ 24)%Z). apply nearest_mono.
  apply Qlt_le_weak, Qlt_shift_div_r; [apply pow2_pos|].
  change (inject_Z (2 ^ 24)) with (2 ^ 24)%Q. rewrite <- pow2_add.
  by replace (24 + (e - 23))%Z with (e + 1)%Z by lia.
Qed.

Lemma scaled_above x e :
  (2 ^ e <= x)%Q → (2 ^ 23 <= nearest (x / 2 ^ (e - 23)))%Z.
Proof.
  intros Hx. rewrite <- (nearest_integer (2 ^ 23)%Z) at 1. apply nearest_mono.
  apply Qle_shift_div_l; [apply pow2_pos|].
  change (inject_Z (2 ^ 23)) with (2 ^ 23)%Q. rewrite <- pow2_add.
  by replace (23 + (e - 23))%Z with e by lia.
Qed.

Lemma to_float32_mono_positive x y :
  (0 < x)%Q → (x <= y)%Q → (to_float32 x <= to_float32 y)%Q.
Proof.
  intros Hx Hxy. assert (Hy : (0 < y)%Q) by (by eapply Qlt_le_trans).
  rewrite (to_float32_positive x Hx), (to_float32_positive y Hy).
  destruct (binade_spec x Hx) as [Bx1 Bx2], (binade_spec y Hy) as [By1 By2].
  unfold ulp_exponent.
  set (Ex := binade x) in *. set (Ey := binade y) in *. clearbody Ex Ey.
  assert (HE : (Ex <= Ey)%Z).
  { assert (H : (2 ^ Ex < 2 ^ (Ey + 1))%Q).
    { eapply Qle_lt_trans; [exact Bx1|]. eapply Qle_lt_trans; [exact Hxy|done]. }
    apply Qpower_lt_compat_l_inv in H; [lia|done]. }
  set (ex := Z.max Ex (-126)). set (ey := Z.max Ey (-126)).
  assert (Hx2 : (x < 2 ^ (ex + 1))%Q).
  { eapply Qlt_le_trans; [exact Bx2|]. apply pow2_le. lia. }
  destruct (Z.eq_dec ex ey) as [He|He].
  - rewrite <- He. apply Qmult_le_compat_r; [|apply Qlt_le_weak, pow2_pos].
    rewrite <- Zle_Qle. apply nearest_mono.
    apply Qmult_le_compat_r; [done|]. apply Qlt_le_weak, Qinv_lt_0_compat, pow2_pos.
  - assert (Hlt : (ex + 1 <= ey)%Z) by lia.
    assert (Hey : ey = Ey) by lia.
    apply Qle_trans with (2 ^ ey)%Q.
    + apply Qle_trans with (2 ^ (ex + 1))%Q; [|by apply pow2_le].
      replace (ex + 1)%Z with (24 + (ex - 23))%Z by lia. rewrite pow2_add.
      apply Qmult_le_compat_r; [|apply Qlt_le_weak, pow2_pos].
      change (2 ^ 24)%Q with (inject_Z (2 ^ 24)). rewrite <- Zle_Qle.
      by apply scaled_below.
    + replace ey with (23 + (ey - 23))%Z at 1 by lia. rewrite pow2_add.
      apply Qmult_le_compat_r; [|apply Qlt_le_weak, pow2_pos].
      change (2 ^ 23)%Q with (inject_Z (2 ^ 23)). rewrite <- Zle_Qle.
      apply scaled_above. by rewrite Hey.
Qed.

Lemma to_float32_of_opp x : (to_float32 x == - to_float32 (- x))%Q.
Proof.
  assert (H : (- - x)%Q = x) by (destruct x; unfold Qopp; simpl; by rewrite Z.opp_involutive).
  rewrite <- H at 1. apply to_float32_opp.
Qed.

Lemma Qopp_nonneg x : (x <= 0)%Q → (0 <= - x)%Q.
Proof. intros H. apply Qopp_le_compat in H. exact H. Qed.

Lemma Qopp_pos x : (x < 0)%Q → (0 < - x)%Q.
Proof. intros H. apply Qopp_lt_compat in H. exact H. Qed.

(** Rounding to float32 preserves the order. *)
Lemma to_float32_mono x y : (x <= y)%Q → (to_float32 x <= to_float32 y)%Q.
Proof.
  intros Hxy.
  destruct (Qlt_le_dec 0 x) as [Hx|Hx]; [by apply to_float32_mono_positive|].
  destruct (Qlt_le_dec y 0) as [Hy|Hy].
  - rewrite (to_float32_of_opp x), (to_float32_of_opp y).
    apply Qopp_le_compat. apply to_float32_mono_positive.
    + by apply Qopp_pos.
    + by apply Qopp_le_compat.
  - apply Qle_trans with 0%Q; [|by apply to_float32_nonneg].
    rewrite (to_float32_of_opp x).
    apply (Qopp_le_compat 0). apply to_float32_nonneg. by apply Qopp_nonneg.
Qed.





(** ** Arrays *)

Section array_lemmas.

Lemma length_chunks {A} k n (l : list A) : length (chunks k n l) = n.
Proof. revert l. induction n as [|n IH]; intros l; simpl; [done | by rewrite IH]. Qed.

Lemma concat_chunks {A} k n (l : list A) :
  length l = (n * k)%nat → concat (chunks k n l) = l.
Proof.
  revert l. induction n as [|n IH]; intros l Hl; simpl in *.
  - by destruct l.
  - rewrite IH; [apply take_drop |]. rewrite length_drop. lia.
Qed.

Lemma Forall_chunks_length {A} k n (l : list A) :
  length l = (n * k)%nat → Forall (λ c, length c = k) (chunks k n l).
Proof.
  revert l. induction n as [|n IH]; intros l Hl; simpl in *; constructor.
  - rewrite length_take. lia.
  - apply IH. rewrite length_drop. lia.
Qed.

Lemma zip_with_snd {A B} (l : list A) (k : list B) :
  length l = length k → zip_with (λ _ b, b) l k = k.
Proof.
  revert k. induction l as [|x l IH]; intros [|y k] H; simpl in *; try done.
  f_equal. apply IH. lia.
Qed.

Lemma scatter_Full n sh' l b :
  length b = (n * size sh')%nat → scatter [Full] (n :: sh') l b = b.
Proof.
  intros Hb. unfold Full. cbn [scatter slice_bounds slice_shape default from_option id].
  rewrite Nat.sub_0_r, drop_0, take_0. cbn [app Nat.add].
  rewrite take_ge by (rewrite length_chunks; lia).
  rewrite drop_ge by (rewrite length_chunks; lia).
  rewrite app_nil_r.
  rewrite zip_with_snd by (by rewrite !length_chunks).
  by apply concat_chunks.
Qed.

Lemma mapM_id_chunks (f : list Q → option (list Q)) k n l :
  length l = (n * k)%nat →
  (∀ c, length c = k → f c = Some c) →
  mapM f (chunks k n l) = Some (chunks k n l).
Proof.
  intros Hl Hf. apply mapM_Some. 
  pose proof (Forall_chunks_length k n l Hl) as HF.
  induction HF; constructor; auto.
Qed.

Lemma broadcast_flat_same sh l :
  length l = size sh → broadcast_flat sh l sh = Some l.
Proof.
  revert l. induction sh as [|n sh IH]; intros l Hl; simpl in *; [done|].
  rewrite Nat.ltb_irrefl, Nat.eqb_refl.
  rewrite (mapM_id_chunks _ (size sh) n l) by auto.
  simpl. f_equal. by apply concat_chunks.
Qed.

End array_lemmas.

Arguments setitem : simpl never.
Arguments getitem : simpl never.
Arguments to_float32 : simpl never.
Arguments to_uint8 : simpl never.

Lemma shape_astype d a : numpy.shape (astype d a) = numpy.shape a.
Proof. reflexivity. Qed.

Lemma length_astype d a : length (flat (astype d a)) = length (flat a).
Proof. unfold astype. cbn [flat]. apply length_fmap. Qed.

Lemma setitem_Full_same_shape a data n sh' :
  numpy.shape a = n :: sh' → numpy.shape data = n :: sh' →
  length (flat data) = size (n :: sh') →
  setitem a [Full] data = Ok (mk_nd (n :: sh') (flat data)).
Proof.
  intros Ha Hd Hl. unfold setitem. rewrite Ha, Hd.
  cbn [slice_shape Full slice_bounds snd]. rewrite Nat.sub_0_r, Nat.sub_diag.
  cbn [strip_ones]. rewrite broadcast_flat_same by done.
  by rewrite scatter_Full.
Qed.

(** *** Evaluation of the methods of [array] *)

Ltac eval_M :=
  unfold bind, ret, raise, lift, modify, set_buffers, set_geometries, record;
  repeat (first [ rewrite lookup_insert_eq | progress simpl ]).

Lemma setitem_eval self sl data s B :
  buffers s !! util.buf self = Some B →
  util.__setitem__ self sl data s =
    match setitem (contents B) sl (astype (element_type B) data) with
    | Raise e => (held (util.buf self) B s, Raise e)
    | Ok a' =>
        match util.geom self with
        | Some g => Backend.update (_geometry g) (released (util.buf self) a' B s)
        | None => (released (util.buf self) a' B s, Ok tt)
        end
    end.
Proof.
  intros H. destruct self as [b g]. simpl in *.
  unfold util.__setitem__, util.numpy_array, util.assign, Backend.map, Backend.unmap,
    Backend.get_buffer, Backend.put_buffer, held, released.
  eval_M. rewrite H. eval_M.
  destruct (setitem (contents B) sl (astype (element_type B) data)) as [a'|e];
    eval_M; [|reflexivity].
  rewrite !insert_insert_eq, <- !app_assoc. simpl.
  destruct g; reflexivity.
Qed.

Lemma getitem_eval self sl s B :
  buffers s !! util.buf self = Some B →
  util.__getitem__ self sl s =
    match getitem (contents B) sl with
    | Raise e => (held (util.buf self) B s, Raise e)
    | Ok v => (released (util.buf self) (contents B) B s, Ok v)
    end.
Proof.
  intros H. destruct self as [b g]. simpl in *.
  unfold util.__getitem__, util.numpy_array, Backend.map, Backend.unmap,
    Backend.get_buffer, Backend.put_buffer, held, released.
  eval_M. rewrite H. eval_M.
  destruct (getitem (contents B) sl) as [v|e]; eval_M; [|reflexivity].
  by rewrite !insert_insert_eq, <- !app_assoc.
Qed.

Lemma shape_eval self s B :
  buffers s !! util.buf self = Some B →
  util.shape self s =
    (released (util.buf self) (contents B) B s, Ok (numpy.shape (contents B))).
Proof.
  intros H. destruct self as [b g]. simpl in *.
  unfold util.shape, util.numpy_array, Backend.map, Backend.unmap,
    Backend.get_buffer, Backend.put_buffer, held, released.
  eval_M. rewrite H. eval_M.
  by rewrite !insert_insert_eq, <- !app_assoc.
Qed.

Lemma dtype_eval self s B :
  buffers s !! util.buf self = Some B →
  util.dtype self s =
    (released (util.buf self) (contents B) B s, Ok (element_type B)).
Proof.
  intros H. destruct self as [b g]. simpl in *.
  unfold util.dtype, util.numpy_array_dtype, Backend.map, Backend.unmap,
    Backend.get_buffer, Backend.put_buffer, held, released.
  eval_M. rewrite H. eval_M.
  by rewrite !insert_insert_eq, <- !app_assoc.
Qed.

Lemma update_eval g s :
  Backend.update g s =
    match geometries s !! g with
    | Some _ => (record (update_call g) s, Ok tt)
    | None => (s, Raise invalid_handle)
    end.
Proof.
  unfold Backend.update, Backend.get_geometry, bind, modify.
  by destruct (geometries s !! g).
Qed.

Lemma map_invalid b s :
  buffers s !! b = None → Backend.map b s = (s, Raise invalid_handle).
Proof.
  intros H. unfold Backend.map, Backend.get_buffer, bind. by rewrite H.
Qed.

Lemma setitem_invalid self sl data s :
  buffers s !! util.buf self = None →
  util.__setitem__ self sl data s = (s, Raise invalid_handle).
Proof.
  intros H. unfold util.__setitem__, bind. by rewrite map_invalid.
Qed.

Lemma issued_app s s' calls : log s' = log s ++ calls → issued s s' = calls.
Proof. intros H. unfold issued. rewrite H. apply drop_app_length. Qed.

(** ** Buffer views *)

(** C1: a write through a view that completes issues exactly one update()
    on the native handle of the view's geometry, whatever the slice, and
    none when the view has no geometry. *)
Theorem setitem_issues_one_update self slice data s s' :
  util.__setitem__ self slice data s = (s', Ok tt) →
  log s' = log s ++ issued s s' ∧
  updates (issued s s') =
    match util.geom self with Some g => [_geometry g] | None => [] end.
Proof.
  intros H.
  destruct (buffers s !! util.buf self) as [B|] eqn:HB;
    [| by rewrite setitem_invalid in H].
  rewrite (setitem_eval _ _ _ _ B HB) in H.
  destruct (setitem (contents B) slice (astype (element_type B) data)) as [a'|e]; [|done].
  destruct (util.geom self) as [g|].
  - rewrite update_eval in H. simpl in H.
    destruct (geometries s !! _geometry g); [|done].
    injection H as <-.
    assert (Hlog : log (record (update_call (_geometry g))
                     (released (util.buf self) a' B s))
                   = log s ++ [map_call (util.buf self); unmap_call (util.buf self);
                               update_call (_geometry g)])
      by (simpl; by rewrite <- app_assoc).
    rewrite (issued_app _ _ _ Hlog). done.
  - injection H as <-.
    by rewrite (issued_app s _ [map_call (util.buf self); unmap_call (util.buf self)]).
Qed.

Lemma getitem_invalid self sl s :
  buffers s !! util.buf self = None →
  util.__getitem__ self sl s = (s, Raise invalid_handle).
Proof.
  intros H. unfold util.__getitem__, bind. by rewrite map_invalid.
Qed.

Lemma shape_invalid self s :
  buffers s !! util.buf self = None →
  util.shape self s = (s, Raise invalid_handle).
Proof.
  intros H. unfold util.shape, bind. by rewrite map_invalid.
Qed.

Lemma dtype_invalid self s :
  buffers s !! util.buf self = None →
  util.dtype self s = (s, Raise invalid_handle).
Proof.
  intros H. unfold util.dtype, bind. by rewrite map_invalid.
Qed.

Lemma scoped_map_unmap b rest :
  Forall (λ c, match c with update_call _ => True | _ => False end) rest →
  scoped b false (map_call b :: unmap_call b :: rest) = true.
Proof.
  intros Hrest. simpl. rewrite !decide_True by done. simpl.
  induction Hrest as [|c rest Hc _ IH]; [done|]. by destruct c.
Qed.

Lemma released_is_released b a B s rest s' :
  Forall (λ c, match c with update_call _ => True | _ => False end) rest →
  buffers s' = buffers (released b a B s) →
  log s' = log (released b a B s) ++ rest →
  log s' = log s ++ issued s s' ∧
  scoped b false (issued s s') = true ∧
  is_mapped b s' = Some false.
Proof.
  intros Hrest Hb Hl.
  assert (Hlog : log s' = log s ++ map_call b :: unmap_call b :: rest)
    by (rewrite Hl; simpl; by rewrite <- app_assoc).
  rewrite (issued_app _ _ _ Hlog). split; [done|]. split.
  - by apply scoped_map_unmap.
  - unfold is_mapped. rewrite Hb. simpl. by rewrite lookup_insert_eq.
Qed.

(** C3 (as amended): every operation of a buffer view that returns
    normally has followed its map() of the buffer by an unmap(); the buffer
    is unmapped when the operation returns. *)
Theorem view_operation_releases_on_return self o s s' :
  perform self o s = (s', Ok tt) → releases self o s.
Proof.
  intros H. unfold releases. rewrite H. simpl. revert H.
  destruct (buffers s !! util.buf self) as [B|] eqn:HB.
  - destruct o as [sl|sl data| |]; unfold perform, bind.
    + rewrite (getitem_eval _ _ _ B HB).
      destruct (getitem (contents B) sl); [|done]. intros [= <-].
      by eapply (released_is_released _ _ _ _ []); [| |symmetry; apply app_nil_r].
    + rewrite (setitem_eval _ _ _ _ B HB).
      destruct (setitem (contents B) sl (astype (element_type B) data)) as [a'|]; [|done].
      destruct (util.geom self) as [g|].
      * rewrite update_eval. simpl. destruct (geometries s !! _geometry g); [|done].
        intros [= <-].
        eapply (released_is_released _ _ _ _ [update_call (_geometry g)]); [|done..].
        by repeat constructor.
      * intros [= <-].
        by eapply (released_is_released _ _ _ _ []); [| |symmetry; apply app_nil_r].
    + rewrite (shape_eval _ _ B HB). intros [= <-].
      by eapply (released_is_released _ _ _ _ []); [| |symmetry; apply app_nil_r].
    + rewrite (dtype_eval _ _ B HB). intros [= <-].
      by eapply (released_is_released _ _ _ _ []); [| |symmetry; apply app_nil_r].
  - destruct o as [sl|sl data| |]; unfold perform, bind.
    + by rewrite getitem_invalid.
    + by rewrite setitem_invalid.
    + by rewrite shape_invalid.
    + by rewrite dtype_invalid.
Qed.

(** The failure path in general: when the element copy of a write raises,
    the write exits in the state reached by map(), with the exception of
    the copy. *)
Lemma failed_copy_exits_mapped self sl data s B e :
  buffers s !! util.buf self = Some B →
  setitem (contents B) sl (astype (element_type B) data) = Raise e →
  util.__setitem__ self sl data s = (held (util.buf self) B s, Raise e) ∧
  is_mapped (util.buf self) (held (util.buf self) B s) = Some true.
Proof.
  intros HB He. rewrite (setitem_eval _ _ _ _ B HB), He. split; [done|].
  unfold is_mapped, held. simpl. by rewrite lookup_insert_eq.
Qed.

(** C3, counterexample to the claim as stated: a write whose element copy
    raises (index 5 of a two-element buffer) exits after map() without
    any unmap(), and the buffer stays mapped. *)
Lemma failed_write_leaves_buffer_mapped :
  snd (perform standalone_view (set [At 5] (scalar 1)) standalone_state)
    = Raise (IndexError "index out of bounds or too many indices") ∧
  issued standalone_state
    (fst (perform standalone_view (set [At 5] (scalar 1)) standalone_state))
    = [map_call 0] ∧
  ¬ releases standalone_view (set [At 5] (scalar 1)) standalone_state.
Proof.
  split; [by vm_compute|]. split; [by vm_compute|].
  intros (_ & _ & Hm). vm_compute in Hm. discriminate.
Qed.

Lemma view_operation_releases_on_return_witness :
  perform standalone_view (set [At 1] (scalar 5)) standalone_state
    = (released 0 (vector [1; 5]%Q) (mk_Buffer (vector [1; 2]%Q) float32 false)
         standalone_state, Ok tt) ∧
  releases standalone_view (set [At 1] (scalar 5)) standalone_state.
Proof.
  split; [by vm_compute|].
  apply (view_operation_releases_on_return standalone_view (set [At 1] (scalar 5))
           standalone_state
           (released 0 (vector [1; 5]%Q) (mk_Buffer (vector [1; 2]%Q) float32 false)
              standalone_state)).
  by vm_compute.
Defined.

(** *** Evaluation of the constructors *)

Lemma fresh_handles N s :
  let p := points_handle s in
  let r := radius_handle N s in
  let c := color_handle N s in
  buffers s !! p = None ∧ buffers s !! r = None ∧ buffers s !! c = None ∧
  p ≠ r ∧ p ≠ c ∧ r ≠ c.
Proof.
  simpl.
  assert (Hp : points_handle s ∉ dom (buffers s)) by (unfold points_handle, radius_handle, color_handle; apply is_fresh).
  assert (Hr : radius_handle N s
               ∉ dom (<[points_handle s := zero_buffer [N; 2; 3]%nat]> (buffers s)))
    by (unfold points_handle, radius_handle, color_handle; apply is_fresh).
  assert (Hc : color_handle N s
               ∉ dom (<[radius_handle N s := zero_buffer [N]]>
                        (<[points_handle s := zero_buffer [N; 2; 3]%nat]> (buffers s))))
    by (unfold points_handle, radius_handle, color_handle; apply is_fresh).
  rewrite !dom_insert_L in Hc. rewrite dom_insert_L in Hr.
  rewrite !not_elem_of_union, !not_elem_of_singleton in Hc.
  rewrite !not_elem_of_union, !not_elem_of_singleton in Hr.
  rewrite !not_elem_of_dom in Hc. rewrite not_elem_of_dom in Hr, Hp.
  destruct Hc as (? & ? & ?), Hr as (? & ?). repeat split; congruence.
Qed.

Lemma geometry_handle_fresh s : geometries s !! geometry_handle s = None.
Proof. apply not_elem_of_dom. unfold geometry_handle. apply is_fresh. Qed.

Lemma Cylinder_init_eval N mat omat w s :
  Cylinder.__init__ None None None (Some N) mat omat w s
  = (cylinder_allocated N mat omat w s, Ok (mk_Geometry (geometry_handle s))).
Proof.
  unfold Cylinder.__init__, Cylinder.GeometryCylinder, GeometryBase.set_material,
    GeometryBase.set_outline_material, GeometryBase.set_outline_width,
    Backend.new_buffer, Backend.new_geometry, Backend.setMaterial,
    Backend.setOutlineMaterial, Backend.setOutlineWidth, Backend.get_geometry,
    Backend.put_geometry, when_Some, cylinder_allocated.
  eval_M.
  rewrite !insert_insert_eq, <- !app_assoc. reflexivity.
Qed.

Lemma write_eval g b sl data s B G :
  buffers s !! b = Some B → geometries s !! g = Some G →
  util.__setitem__ (util.mk_array b (Some (mk_Geometry g))) sl data s =
    match setitem (contents B) sl (astype (element_type B) data) with
    | Raise e => (held b B s, Raise e)
    | Ok a' => (written g b a' s, Ok tt)
    end.
Proof.
  intros HB HG. rewrite (setitem_eval _ _ _ _ B) by done. simpl.
  destruct (setitem (contents B) sl (astype (element_type B) data)) as [a'|e]; [|done].
  rewrite update_eval. unfold written. simpl. by rewrite HB, HG.
Qed.

Lemma written_buffers g b a s B :
  buffers s !! b = Some B →
  buffers (written g b a s) = <[b := mk_Buffer a (element_type B) false]> (buffers s).
Proof. intros H. unfold written. by rewrite H. Qed.

Lemma written_geometries g b a s : geometries (written g b a s) = geometries s.
Proof. unfold written. by destruct (buffers s !! b). Qed.


Lemma written_scene g b a s : scene_geometry (written g b a s) = scene_geometry s.
Proof. unfold written. by destruct (buffers s !! b). Qed.

Lemma points_eval g s G p r c :
  geometries s !! g = Some G → kind G = GeometryCylinder p r c →
  Cylinder.points (mk_Geometry g) s = (s, Ok (util.mk_array p (Some (mk_Geometry g)))).
Proof.
  intros HG Hk. unfold Cylinder.points, Backend.getPointsBuffer, Backend.get_geometry, bind.
  simpl. by rewrite HG, Hk.
Qed.

Lemma radius_eval g s G p r c :
  geometries s !! g = Some G → kind G = GeometryCylinder p r c →
  Cylinder.radius (mk_Geometry g) s = (s, Ok (util.mk_array r (Some (mk_Geometry g)))).
Proof.
  intros HG Hk. unfold Cylinder.radius, Backend.getRadiusBuffer, Backend.get_geometry, bind.
  simpl. by rewrite HG, Hk.
Qed.

Lemma color_eval g s G p r c :
  geometries s !! g = Some G → kind G = GeometryCylinder p r c →
  Cylinder.color (mk_Geometry g) s = (s, Ok (util.mk_array c (Some (mk_Geometry g)))).
Proof.
  intros HG Hk. unfold Cylinder.color, Backend.getColorBuffer, Backend.get_geometry, bind.
  simpl. by rewrite HG, Hk.
Qed.

Lemma Box_points_eval self s G p r c :
  geometries s !! _geometry (Box.cylinder self) = Some G →
  kind G = GeometryCylinder p r c →
  Box.points self s = (s, Ok (util.mk_array p (Some (Box.cylinder self)))).
Proof.
  intros HG Hk. unfold Box.points, Backend.getPointsBuffer, Backend.get_geometry, bind.
  by rewrite HG, Hk.
Qed.

Lemma set_primitive_color_mix_eval g v s :
  material.set_primitive_color_mix (mk_Geometry g) v s =
    match geometries s !! g with
    | Some _ => (with_color_mix g v s, Ok tt)
    | None => (s, Raise invalid_handle)
    end.
Proof.
  unfold material.set_primitive_color_mix, Backend.getMaterial, Backend.setMaterial,
    Backend.get_geometry, Backend.put_geometry, with_color_mix, bind, ret, modify. simpl.
  destruct (geometries s !! g) as [G|] eqn:HG; [|done]. by rewrite HG.
Qed.

Lemma generate_points_shape box pts :
  Box._generate_points box = Ok pts →
  numpy.shape pts = [12; 2; 3]%nat ∧ length (flat pts) = 72%nat.
Proof.
  unfold Box._generate_points.
  destruct box as [|x1 [|x2 [|x3 [|x4 [|x5 [|x6 [|x7 box]]]]]]]; intros [= <-]; done.
Qed.

Lemma setitem_points a d box pts :
  numpy.shape a = [12; 2; 3]%nat → Box._generate_points box = Ok pts →
  setitem a [Full] (astype d pts) = Ok (astype d pts).
Proof.
  intros Ha [Hs Hl]%generate_points_shape.
  rewrite (setitem_Full_same_shape a (astype d pts) 12 [2; 3]%nat);
    [|done|by rewrite shape_astype|by rewrite length_astype].
  unfold astype. cbn [numpy.shape flat]. by rewrite Hs.
Qed.

Lemma box_allocated_geometry mix0 s :
  geometries (box_allocated mix0 s) !! geometry_handle s
  = Some (mk_NativeGeometry
            (GeometryCylinder (points_handle s) (radius_handle 12 s) (color_handle 12 s))
            (material.Material mix0 1 (1, 0, 1)%Q)
            (material.Material mix0 1 (0, 0, 0)%Q) 0).
Proof. apply lookup_insert_eq. Qed.

Lemma box_allocated_buffers mix0 s :
  buffers (box_allocated mix0 s) !! points_handle s = Some (zero_buffer [12; 2; 3]%nat) ∧
  buffers (box_allocated mix0 s) !! radius_handle 12 s = Some (zero_buffer [12]%nat) ∧
  buffers (box_allocated mix0 s) !! color_handle 12 s = Some (zero_buffer [12; 2; 3]%nat).
Proof.
  destruct (fresh_handles 12 s) as (_ & _ & _ & Hpr & Hpc & Hrc).
  unfold box_allocated, cylinder_allocated. simpl.
  repeat split.
  - rewrite lookup_insert_ne by done. rewrite lookup_insert_ne by done.
    apply lookup_insert_eq.
  - rewrite lookup_insert_ne by done. apply lookup_insert_eq.
  - apply lookup_insert_eq.
Qed.

Lemma Box_init_eval mix0 s box radius color :
  Box.__init__ mix0 box radius color s =
    let p := points_handle s in
    let r := radius_handle 12 s in
    let c := color_handle 12 s in
    let g := geometry_handle s in
    let s1 := box_allocated mix0 s in
    let self := Box.mk (mk_Geometry g) box in
    match Box._generate_points box with
    | Raise e => (s1, Raise e)
    | Ok pts =>
        let s2 := written g p (astype float32 pts) s1 in
        match setitem (zeros [12]%nat) [Full]
                (astype float32 (default (vector [1 # 2]) radius)) with
        | Raise e => (held r (zero_buffer [12]%nat) s2, Raise e)
        | Ok ra =>
            let s3 := written g r ra s2 in
            match color with
            | None => (s3, Ok self)
            | Some v =>
                match setitem (zeros [12; 2; 3]%nat) [Full] (astype float32 v) with
                | Raise e => (held c (zero_buffer [12; 2; 3]%nat) s3, Raise e)
                | Ok co => (with_color_mix g 1 (written g c co s3), Ok self)
                end
            end
        end
    end.
Proof.
  destruct (fresh_handles 12 s) as (_ & _ & _ & Hpr & Hpc & Hrc).
  destruct (box_allocated_buffers mix0 s) as (Hp & Hr & Hc).
  pose proof (box_allocated_geometry mix0 s) as HG.
  unfold Box.__init__. unfold bind at 1. rewrite Cylinder_init_eval.
  fold (box_allocated mix0 s). cbv zeta.
  set (p := points_handle s) in *. set (r := radius_handle 12 s) in *.
  set (c := color_handle 12 s) in *. set (g := geometry_handle s) in *.
  set (s1 := box_allocated mix0 s) in *.
  unfold bind at 1, lift at 1.
  destruct (Box._generate_points box) as [pts|e] eqn:Hpts; [|done].
  unfold bind at 1. erewrite Box_points_eval by done. cbn [Box.cylinder].
  unfold bind at 1. erewrite write_eval by done.
  cbn [contents element_type zero_buffer].
  rewrite (setitem_points _ float32 box) by done.
  set (pts32 := astype float32 pts).
  assert (HG2 : geometries (written g p pts32 s1) !! g = geometries s1 !! g)
    by by rewrite written_geometries.
  assert (Hr2 : buffers (written g p pts32 s1) !! r = Some (zero_buffer [12]%nat)).
  { rewrite (written_buffers _ _ _ _ _ Hp). by rewrite lookup_insert_ne. }
  assert (Hc2 : buffers (written g p pts32 s1) !! c = Some (zero_buffer [12; 2; 3]%nat)).
  { rewrite (written_buffers _ _ _ _ _ Hp). by rewrite lookup_insert_ne. }
  rewrite HG in HG2.
  unfold bind at 1.
  assert (Hrad : (match radius with
    | Some r0 => a <- Cylinder.radius (mk_Geometry g) ;; util.__setitem__ a [Full] r0
    | None => a <- Cylinder.radius (mk_Geometry g) ;; util.__setitem__ a [Full] (vector [1 # 2])
    end) (written g p pts32 s1)
    = match setitem (zeros [12]%nat) [Full]
              (astype float32 (default (vector [1 # 2]) radius)) with
      | Raise e => (held r (zero_buffer [12]%nat) (written g p pts32 s1), Raise e)
      | Ok ra => (written g r ra (written g p pts32 s1), Ok tt)
      end).
  { destruct radius; unfold bind; erewrite radius_eval by done;
      erewrite write_eval by done; done. }
  rewrite Hrad. clear Hrad. simpl.
  destruct (setitem (zeros [12]%nat) [Full]
              (astype float32 (default (vector [1 # 2]) radius))) as [ra|e];
    [|done].
  destruct color as [v|]; [|done].
  assert (HG3 : geometries (written g r ra (written g p pts32 s1)) !! g = geometries s1 !! g)
    by by rewrite !written_geometries.
  assert (Hc3 : buffers (written g r ra (written g p pts32 s1)) !! c
                = Some (zero_buffer [12; 2; 3]%nat)).
  { rewrite (written_buffers _ _ _ _ _ Hr2). by rewrite lookup_insert_ne. }
  rewrite HG in HG3.
  unfold bind. erewrite color_eval by done. erewrite write_eval by done.
  cbn [contents element_type zero_buffer].
  destruct (setitem (zeros [12; 2; 3]%nat) [Full] (astype float32 v)) as [co|e]; [|done].
  rewrite set_primitive_color_mix_eval.
  by rewrite written_geometries, HG3.
Qed.


Lemma with_color_mix_buffers g v s : buffers (with_color_mix g v s) = buffers s.
Proof. unfold with_color_mix. by destruct (geometries s !! g). Qed.

Lemma with_color_mix_geometry g v s G :
  geometries s !! g = Some G →
  geometries (with_color_mix g v s) !! g
  = Some (mk_NativeGeometry (kind G)
            (mk_Material (solid (material G)) (color (material G)) v)
            (outline_material G) (outline_width G)).
Proof. intros H. unfold with_color_mix. rewrite H. simpl. apply lookup_insert_eq. Qed.

Lemma generate_points_accepted box :
  is_Ok (Box._generate_points box) = accepted_length (length box).
Proof.
  by destruct box as [|x1 [|x2 [|x3 [|x4 [|x5 [|x6 [|x7 box]]]]]]].
Qed.

Lemma generate_points_rejected box :
  accepted_length (length box) = false →
  Box._generate_points box = Raise (RuntimeError Box.box_length_msg).
Proof.
  by destruct box as [|x1 [|x2 [|x3 [|x4 [|x5 [|x6 [|x7 box]]]]]]].
Qed.

Lemma default_radius_written :
  setitem (zeros [12]%nat) [Full] (astype float32 (vector [1 # 2]))
  = Ok (mk_nd [12]%nat (replicate 12 (1 # 2))).
Proof. by vm_compute. Qed.

(** What a completed [Box.__init__] leaves in the state. *)
Lemma Box_init_Ok mix0 box radius color s s' self :
  Box.__init__ mix0 box radius color s = (s', Ok self) →
  self = Box.mk (mk_Geometry (geometry_handle s)) box ∧
  ∃ pts ra co,
    Box._generate_points box = Ok pts ∧
    geometries s' !! geometry_handle s
    = Some (mk_NativeGeometry
              (GeometryCylinder (points_handle s) (radius_handle 12 s) (color_handle 12 s))
              (mk_Material 1 (1, 0, 1)%Q (match color with Some _ => 1 | None => mix0 end))
              (material.Material mix0 1 (0, 0, 0)%Q) 0) ∧
    buffers s' !! points_handle s = Some (mk_Buffer (astype float32 pts) float32 false) ∧
    buffers s' !! radius_handle 12 s = Some (mk_Buffer ra float32 false) ∧
    buffers s' !! color_handle 12 s = Some (mk_Buffer co float32 false).
Proof.
  rewrite Box_init_eval. cbv zeta.
  destruct (fresh_handles 12 s) as (_ & _ & _ & Hpr & Hpc & Hrc).
  destruct (box_allocated_buffers mix0 s) as (Hp & Hr & Hc).
  pose proof (box_allocated_geometry mix0 s) as HG.
  set (g := geometry_handle s) in *. set (p := points_handle s) in *.
  set (r := radius_handle 12 s) in *. set (c := color_handle 12 s) in *.
  set (s1 := box_allocated mix0 s) in *.
  destruct (Box._generate_points box) as [pts|] eqn:Hpts; [|done].
  set (pts32 := astype float32 pts).
  destruct (setitem (zeros [12]%nat) [Full]
              (astype float32 (default (vector [1 # 2]) radius)))
    as [ra|]; [|done].
  assert (Hp2 : buffers (written g p pts32 s1) !! p = Some (mk_Buffer pts32 float32 false)).
  { rewrite (written_buffers _ _ _ _ _ Hp). apply lookup_insert_eq. }
  assert (Hr2 : buffers (written g p pts32 s1) !! r = Some (zero_buffer [12]%nat)).
  { rewrite (written_buffers _ _ _ _ _ Hp). by rewrite lookup_insert_ne. }
  assert (Hc2 : buffers (written g p pts32 s1) !! c = Some (zero_buffer [12; 2; 3]%nat)).
  { rewrite (written_buffers _ _ _ _ _ Hp). by rewrite lookup_insert_ne. }
  set (s2 := written g p pts32 s1) in *.
  assert (Hp3 : buffers (written g r ra s2) !! p = Some (mk_Buffer pts32 float32 false)).
  { rewrite (written_buffers _ _ _ _ _ Hr2). by rewrite lookup_insert_ne. }
  assert (Hr3 : buffers (written g r ra s2) !! r = Some (mk_Buffer ra float32 false)).
  { rewrite (written_buffers _ _ _ _ _ Hr2). apply lookup_insert_eq. }
  assert (Hc3 : buffers (written g r ra s2) !! c = Some (zero_buffer [12; 2; 3]%nat)).
  { rewrite (written_buffers _ _ _ _ _ Hr2). by rewrite lookup_insert_ne. }
  assert (HG3 : geometries (written g r ra s2) !! g = geometries s1 !! g)
    by (unfold s2; by rewrite !written_geometries).
  rewrite HG in HG3.
  set (s3 := written g r ra s2) in *.
  destruct color as [v|].
  - destruct (setitem (zeros [12; 2; 3]%nat) [Full] (astype float32 v)) as [co|]; [|done].
    intros [= <- <-]. split; [done|]. exists pts, ra, co. split; [done|].
    rewrite with_color_mix_buffers.
    rewrite (written_buffers _ _ _ _ _ Hc3).
    repeat split.
    + erewrite with_color_mix_geometry; [|by rewrite written_geometries]. reflexivity.
    + by rewrite lookup_insert_ne.
    + by rewrite lookup_insert_ne.
    + apply lookup_insert_eq.
  - intros [= <- <-]. split; [done|]. exists pts, ra, (zeros [12; 2; 3]%nat).
    done.
Qed.

(** [Box.__init__] with the default radius and no color completes for
    every accepted box parameter. *)
Lemma Box_init_default mix0 box s :
  accepted_length (length box) = true →
  ∃ s', Box.__init__ mix0 box None None s
        = (s', Ok (Box.mk (mk_Geometry (geometry_handle s)) box)).
Proof.
  intros Hacc. rewrite Box_init_eval. cbv zeta. cbn [default from_option].
  rewrite <- generate_points_accepted in Hacc.
  destruct (Box._generate_points box); [|done].
  rewrite default_radius_written. eauto.
Qed.

Lemma points_of_lookup g s G p r c a :
  geometries s !! g = Some G → kind G = GeometryCylinder p r c →
  buffer_contents p s = a → points_of (mk_Geometry g) s = a.
Proof.
  intros HG Hk Ha. unfold points_of, attribute. simpl. rewrite HG. simpl.
  by rewrite Hk.
Qed.

Lemma radius_of_lookup g s G p r c a :
  geometries s !! g = Some G → kind G = GeometryCylinder p r c →
  buffer_contents r s = a → radius_of (mk_Geometry g) s = a.
Proof.
  intros HG Hk Ha. unfold radius_of, attribute. simpl. rewrite HG. simpl.
  by rewrite Hk.
Qed.

Lemma color_of_lookup g s G p r c a :
  geometries s !! g = Some G → kind G = GeometryCylinder p r c →
  buffer_contents c s = a → color_of (mk_Geometry g) s = a.
Proof.
  intros HG Hk Ha. unfold color_of, attribute. simpl. rewrite HG. simpl.
  by rewrite Hk.
Qed.

Lemma Box_init_points mix0 box radius color s s' self :
  Box.__init__ mix0 box radius color s = (s', Ok self) →
  ∃ pts, Box._generate_points box = Ok pts ∧
         points_of (Box.cylinder self) s' = Some (astype float32 pts).
Proof.
  intros (-> & pts & ra & co & Hpts & HG & Hp & _)%Box_init_Ok.
  exists pts. split; [done|]. simpl.
  eapply points_of_lookup; [done..|]. unfold buffer_contents. by rewrite Hp.
Qed.

Lemma Box_init_valid mix0 box radius color s s' self :
  Box.__init__ mix0 box radius color s = (s', Ok self) → Box_valid self s'.
Proof.
  intros (-> & pts & ra & co & Hpts & HG & Hp & _)%Box_init_Ok.
  destruct (fresh_handles 12 s) as (_ & _ & _ & Hpr & Hpc & Hrc).
  apply generate_points_shape in Hpts as [Hs _].
  unfold Box_valid. simpl.
  eexists _, _, _, _, _. split; [exact HG|]. split; [reflexivity|].
  split; [done|]. split; [done|]. split; [exact Hp|]. by split.
Qed.

(** ** Box *)

Lemma box_allocated_keeps_buffers mix0 s b B :
  buffers s !! b = Some B → buffers (box_allocated mix0 s) !! b = Some B.
Proof.
  intros HB. destruct (fresh_handles 12 s) as (Hp & Hr & Hc & _).
  unfold box_allocated, cylinder_allocated. simpl.
  rewrite !lookup_insert_ne; [done|congruence..].
Qed.

Lemma box_allocated_new_buffers mix0 s b B :
  buffers (box_allocated mix0 s) !! b = Some B →
  buffers s !! b = Some B ∨ B = zero_buffer (numpy.shape (contents B)).
Proof.
  unfold box_allocated, cylinder_allocated. simpl.
  rewrite !lookup_insert_Some.
  intros [[_ <-]|[_ [[_ <-]|[_ [[_ <-]|[_ H]]]]]]; auto.
Qed.

Lemma setitem_raises a sl data e :
  setitem a sl data = Raise e → ∃ msg, e = IndexError msg ∨ e = ValueError msg.
Proof.
  unfold setitem. destruct (slice_shape sl (numpy.shape a)); [|intros [= <-]; eauto].
  destruct (broadcast_flat _ _ _); [done|intros [= <-]; eauto].
Qed.

(** C8: [Box] with a box parameter whose length is not 1, 3 or 6 raises
    the length error, and it does so before any buffer is touched: every
    buffer that existed is unchanged, the buffers allocated for the new
    geometry are still zero-filled, and no buffer was mapped.  Lengths 1, 3
    and 6 are accepted, a box [L] being the box [L, L, L] and a box
    [Lx, Ly, Lz] being the box [Lx, Ly, Lz, 0, 0, 0]. *)
Theorem Box_init_checks_box_length mix0 box radius color s :
  let s' := fst (Box.__init__ mix0 box radius color s) in
  let res := snd (Box.__init__ mix0 box radius color s) in
  (accepted_length (length box) = false →
     res = Raise (RuntimeError Box.box_length_msg) ∧
     (∀ b B, buffers s !! b = Some B → buffers s' !! b = Some B) ∧
     (∀ b B, buffers s' !! b = Some B →
        buffers s !! b = Some B ∨ B = zero_buffer (numpy.shape (contents B))) ∧
     Forall (λ c, is_map_call c = false) (issued s s')) ∧
  (accepted_length (length box) = true →
     res ≠ Raise (RuntimeError Box.box_length_msg) ∧
     (radius = None → color = None →
      res = Ok (Box.mk (mk_Geometry (geometry_handle s)) box))) ∧
  (∀ L, Box._generate_points [L] = Box._generate_points [L; L; L; 0; 0; 0]%Q) ∧
  (∀ Lx Ly Lz,
     Box._generate_points [Lx; Ly; Lz] = Box._generate_points [Lx; Ly; Lz; 0; 0; 0]%Q).
Proof.
  cbv zeta. split; [|split; [|split]].
  - intros Hrej. rewrite Box_init_eval. cbv zeta.
    rewrite (generate_points_rejected box Hrej). cbn [fst snd].
    split; [done|]. split; [|split].
    + apply (box_allocated_keeps_buffers mix0 s).
    + apply (box_allocated_new_buffers mix0 s).
    + set (g := geometry_handle s).
      rewrite (issued_app s (box_allocated mix0 s)
                 [setMaterial_call g; setOutlineMaterial_call g; setOutlineWidth_call g])
        by reflexivity.
      by repeat constructor.
  - intros Hacc. split.
    + rewrite Box_init_eval. cbv zeta.
      rewrite <- generate_points_accepted in Hacc.
      destruct (Box._generate_points box) as [pts|]; [|done].
      destruct (setitem (zeros [12]%nat) [Full]
                  (astype float32 (default (vector [1 # 2]) radius)))
        as [ra|e] eqn:Hra;
        [|apply setitem_raises in Hra as [msg [-> | ->]]; done].
      destruct color as [v|]; [|done].
      destruct (setitem (zeros [12; 2; 3]%nat) [Full] (astype float32 v))
        as [co|e] eqn:Hco; [done|].
      apply setitem_raises in Hco as [msg [-> | ->]]; done.
    + intros -> ->. destruct (Box_init_default mix0 box s Hacc) as [s' ->]. done.
  - done.
  - done.
Qed.

Lemma Box_init_checks_box_length_witness :
  accepted_length (length [2; 2]%Q) = false ∧
  snd (Box.__init__ 0 [2; 2]%Q None None empty_state)
    = Raise (RuntimeError Box.box_length_msg).
Proof.
  split; [reflexivity|].
  apply (Box_init_checks_box_length 0 [2; 2]%Q None None empty_state).
  reflexivity.
Defined.

(** C10: when [Box] is constructed with a color, the material of the new
    geometry has [primitive_color_mix] set to 1; when it is constructed
    without one, [primitive_color_mix] is the one of the default material
    [Material(solid=1.0, color=(1,0,1))].  The rest of the material is the
    default material in both cases. *)
Theorem Box_init_primitive_color_mix mix0 box radius color s s' self :
  Box.__init__ mix0 box radius color s = (s', Ok self) →
  material_of (Box.cylinder self) s'
  = Some (mk_Material 1 (1, 0, 1)%Q
            (match color with
             | Some _ => 1
             | None => primitive_color_mix (material.Material mix0 1 (1, 0, 1)%Q)
             end)).
Proof.
  intros (-> & pts & ra & co & _ & HG & _)%Box_init_Ok.
  unfold material_of. simpl. by rewrite HG.
Qed.

Lemma Box_init_primitive_color_mix_witness :
  Box.__init__ 0 [2; 2; 2]%Q None (Some (vector [1; 0; 0]%Q)) empty_state
  = (fst (Box.__init__ 0 [2; 2; 2]%Q None (Some (vector [1; 0; 0]%Q)) empty_state),
     Ok (Box.mk (mk_Geometry 0) [2; 2; 2]%Q)) ∧
  material_of (mk_Geometry 0)
    (fst (Box.__init__ 0 [2; 2; 2]%Q None (Some (vector [1; 0; 0]%Q)) empty_state))
  = Some (mk_Material 1 (1, 0, 1)%Q 1).
Proof.
  assert (H : Box.__init__ 0 [2; 2; 2]%Q None (Some (vector [1; 0; 0]%Q)) empty_state
    = (fst (Box.__init__ 0 [2; 2; 2]%Q None (Some (vector [1; 0; 0]%Q)) empty_state),
       Ok (Box.mk (mk_Geometry 0) [2; 2; 2]%Q))) by (by vm_compute).
  split; [exact H|].
  exact (Box_init_primitive_color_mix 0 [2; 2; 2]%Q None (Some (vector [1; 0; 0]%Q))
           empty_state _ _ H).
Defined.

Lemma cube_constructed :
  Box.__init__ 0 [2; 2; 2]%Q None None empty_state = (cube_state, Ok cube).
Proof. by vm_compute. Qed.

Lemma cube_valid : Box_valid cube cube_state.
Proof. exact (Box_init_valid _ _ _ _ _ _ _ cube_constructed). Qed.

(** C5: assigning an accepted box parameter [b] to the [box] of a Box
    leaves its points equal to the points of a freshly constructed
    [Box(box=b)], and leaves its radius and color buffers as they were. *)
Theorem set_box_regenerates_points self b s :
  Box_valid self s → accepted_length (length b) = true →
  ∃ s' self' pts,
    Box.set_box self b s = (s', Ok self') ∧
    Box.box self' = b ∧
    points_of (Box.cylinder self') s' = Some pts ∧
    (∀ mix0 s0, ∃ s0' new,
       Box.__init__ mix0 b None None s0 = (s0', Ok new) ∧
       points_of (Box.cylinder new) s0' = Some pts) ∧
    (∀ mix0 radius color s0 s0' new,
       Box.__init__ mix0 b radius color s0 = (s0', Ok new) →
       points_of (Box.cylinder new) s0' = Some pts) ∧
    radius_of (Box.cylinder self') s' = radius_of (Box.cylinder self) s ∧
    color_of (Box.cylinder self') s' = color_of (Box.cylinder self) s.
Proof.
  intros (G & p & r & c & B & HG & Hk & Hpr & Hpc & HB & Hsh & Hty) Hacc.
  destruct self as [[g] box0]. simpl in *.
  rewrite <- generate_points_accepted in Hacc.
  destruct (Box._generate_points b) as [pts|] eqn:Hpts; [|done].
  set (pts32 := astype float32 pts).
  assert (Hfresh : ∀ mix0 radius color s0 s0' new,
            Box.__init__ mix0 b radius color s0 = (s0', Ok new) →
            points_of (Box.cylinder new) s0' = Some pts32).
  { intros mix0 radius color s0 s0' new (pts' & Hpts' & Hnew)%Box_init_points.
    unfold pts32. congruence. }
  exists (written g p pts32 s), (Box.mk (mk_Geometry g) b), pts32.
  split; [|split; [done|split; [|split; [|split; [done|split]]]]].
  - unfold Box.set_box, bind, lift. cbn [Box._box Box.cylinder]. rewrite Hpts.
    erewrite Box_points_eval by done. cbn [Box.cylinder].
    erewrite write_eval by done. by rewrite Hty, (setitem_points _ float32 b).
  - simpl. eapply points_of_lookup; [by rewrite written_geometries|done|].
    unfold buffer_contents. rewrite (written_buffers _ _ _ _ _ HB).
    by rewrite lookup_insert_eq.
  - intros mix0 s0.
    destruct (Box_init_default mix0 b s0) as [s0' Hs0'];
      [by rewrite <- generate_points_accepted, Hpts|].
    eauto.
  - simpl. rewrite (radius_of_lookup g s G p r c _ HG Hk eq_refl).
    eapply radius_of_lookup; [by rewrite written_geometries|done|].
    unfold buffer_contents. rewrite (written_buffers _ _ _ _ _ HB).
    by rewrite lookup_insert_ne.
  - simpl. rewrite (color_of_lookup g s G p r c _ HG Hk eq_refl).
    eapply color_of_lookup; [by rewrite written_geometries|done|].
    unfold buffer_contents. rewrite (written_buffers _ _ _ _ _ HB).
    by rewrite lookup_insert_ne.
Qed.

Lemma set_box_regenerates_points_witness :
  Box_valid cube cube_state ∧ accepted_length (length [1; 2; 3; 0; 0; 0]%Q) = true ∧
  ∃ s' self' pts,
    Box.set_box cube [1; 2; 3; 0; 0; 0]%Q cube_state = (s', Ok self') ∧
    Box.box self' = [1; 2; 3; 0; 0; 0]%Q ∧
    points_of (Box.cylinder self') s' = Some pts ∧
    (∀ mix0 s0, ∃ s0' new,
       Box.__init__ mix0 [1; 2; 3; 0; 0; 0]%Q None None s0 = (s0', Ok new) ∧
       points_of (Box.cylinder new) s0' = Some pts) ∧
    (∀ mix0 radius color s0 s0' new,
       Box.__init__ mix0 [1; 2; 3; 0; 0; 0]%Q radius color s0 = (s0', Ok new) →
       points_of (Box.cylinder new) s0' = Some pts) ∧
    radius_of (Box.cylinder self') s' = radius_of (Box.cylinder cube) cube_state ∧
    color_of (Box.cylinder self') s' = color_of (Box.cylinder cube) cube_state.
Proof.
  split; [exact cube_valid|]. split; [reflexivity|].
  exact (set_box_regenerates_points cube [1; 2; 3; 0; 0; 0]%Q cube_state
           cube_valid eq_refl).
Defined.

(** C4: [Box(box=[2,2,2])] holds exactly 12 edges; each of their 24
    endpoints is one of the 8 (distinct) corners of the cube [-1,1]^3, each of the 8
    corners is an endpoint, and each corner is an endpoint of exactly 3 of
    the 12 edges. *)
Theorem Box_cube_edges mix0 radius color s s' self :
  Box.__init__ mix0 [2; 2; 2]%Q radius color s = (s', Ok self) →
  ∃ pts,
    points_of (Box.cylinder self) s' = Some pts ∧
    numpy.shape pts = [12; 2; 3]%nat ∧
    length (edges pts) = 12%nat ∧
    length (endpoints pts) = 24%nat ∧
    length cube_corners = 8%nat ∧
    forallb (λ c, (length (filter (λ d, same_point c d = true) cube_corners) =? 1)%nat)
      cube_corners = true ∧
    forallb (λ e, existsb (same_point e) cube_corners) (endpoints pts) = true ∧
    forallb (λ c, existsb (same_point c) (endpoints pts)) cube_corners = true ∧
    forallb (λ c, (length (filter (λ e, touches c e = true) (edges pts)) =? 3)%nat)
      cube_corners = true.
Proof.
  intros (pts & Hpts & Hof)%Box_init_points.
  exists (astype float32 pts). split; [done|].
  vm_compute in Hpts. injection Hpts as <-.
  repeat split; by vm_compute.
Qed.

Lemma Box_cube_edges_witness :
  Box.__init__ 0 [2; 2; 2]%Q None None empty_state = (cube_state, Ok cube) ∧
  ∃ pts,
    points_of (Box.cylinder cube) cube_state = Some pts ∧
    numpy.shape pts = [12; 2; 3]%nat ∧
    length (edges pts) = 12%nat ∧
    length (endpoints pts) = 24%nat ∧
    length cube_corners = 8%nat ∧
    forallb (λ c, (length (filter (λ d, same_point c d = true) cube_corners) =? 1)%nat)
      cube_corners = true ∧
    forallb (λ e, existsb (same_point e) cube_corners) (endpoints pts) = true ∧
    forallb (λ c, existsb (same_point c) (endpoints pts)) cube_corners = true ∧
    forallb (λ c, (length (filter (λ e, touches c e = true) (edges pts)) =? 3)%nat)
      cube_corners = true.
Proof.
  split; [by vm_compute|].
  apply (Box_cube_edges 0 None None empty_state cube_state cube).
  by vm_compute.
Defined.

(** The setter of [Box.points] raises and changes nothing. *)
Lemma Box_set_points_raises self value s :
  Box.set_points self value s
  = (s, Raise (AttributeError
      "'points' attribute should not be set manually. Please set box instead.")).
Proof. reflexivity. Qed.

(** C2, the code at the failing input: for the box of side 2, the write
    [box.points[0] = 9] through the view that the getter returns completes,
    issues an update, and changes the points buffer: its first edge, which
    was (-1,-1,-1)-(1,-1,-1), becomes (9,9,9)-(9,9,9), while [box.box] is
    still [2, 2, 2]. *)
Theorem Box_points_view_write_changes_points :
  let write := a <- Box.points cube ;; util.__setitem__ a [At 0] (scalar 9) in
  let s' := fst (write cube_state) in
  snd (write cube_state) = Ok tt ∧
  updates (issued cube_state s') = [0%nat] ∧
  edge_at 0 (points_of (Box.cylinder cube) cube_state)
    = Some ([-1; -1; -1], [1; -1; -1])%Q ∧
  edge_at 0 (points_of (Box.cylinder cube) s') = Some ([9; 9; 9], [9; 9; 9])%Q ∧
  points_of (Box.cylinder cube) s' ≠ points_of (Box.cylinder cube) cube_state ∧
  Box.box cube = [2; 2; 2]%Q.
Proof.
  cbv zeta. repeat split; try by vm_compute.
Qed.

(** ** Cylinder *)

Section rows.
Context {A : Type}.

Lemma chunks_app k n (row rest : list A) :
  length row = k → chunks k (S n) (row ++ rest) = row :: chunks k n rest.
Proof.
  intros <-. simpl. by rewrite take_app_length, drop_app_length.
Qed.

Lemma chunks_flat_map {B} k (f : B → list A) (l : list B) :
  (∀ x, length (f x) = k) → chunks k (length l) (flat_map f l) = f <$> l.
Proof.
  intros Hf. induction l as [|x l IH]; [done|]. simpl.
  rewrite take_app_length' by done. rewrite drop_app_length' by done.
  by rewrite IH.
Qed.

Lemma concat_map_fmap {B C} (g : list A → list C) (f : B → list A) (l : list B) :
  concat (map g (f <$> l)) = flat_map (λ x, g (f x)) l.
Proof. induction l as [|x l IH]; [done|]. simpl. f_equal. exact IH. Qed.

End rows.

Lemma vlist_length v : length (vlist v) = 3%nat.
Proof. by destruct v as [[a b] c]. Qed.

Lemma gather_first ps :
  gather [Full; At 0] [length ps; 2; 3]%nat (encode ps)
  = flat_map (λ e, vlist (fst e)) ps.
Proof.
  unfold Full. cbn [gather slice_bounds]. rewrite Nat.sub_0_r, drop_0.
  unfold encode. change (numpy.size [2; 3]%nat) with 6%nat.
  rewrite chunks_flat_map by (intros [u v]; by rewrite length_app, !vlist_length).
  rewrite take_ge by (by rewrite length_fmap).
  rewrite concat_map_fmap. apply flat_map_ext.
  by intros [[[a b] c] [[x y] z]].
Qed.

Lemma gather_second ps :
  gather [Full; At 1] [length ps; 2; 3]%nat (encode ps)
  = flat_map (λ e, vlist (snd e)) ps.
Proof.
  unfold Full. cbn [gather slice_bounds]. rewrite Nat.sub_0_r, drop_0.
  unfold encode. change (numpy.size [2; 3]%nat) with 6%nat.
  rewrite chunks_flat_map by (intros [u v]; by rewrite length_app, !vlist_length).
  rewrite take_ge by (by rewrite length_fmap).
  rewrite concat_map_fmap. apply flat_map_ext.
  by intros [[[a b] c] [[x y] z]].
Qed.

Lemma gather_all (rs : list Q) : gather [Full] [length rs] rs = rs.
Proof.
  unfold Full. cbn [gather slice_bounds]. rewrite Nat.sub_0_r, drop_0.
  rewrite take_ge by (by rewrite length_chunks).
  change (map (gather [] [])) with (map (@id (list Q))). rewrite map_id.
  apply concat_chunks. simpl. lia.
Qed.

Lemma getitem_first ps :
  getitem (mk_nd [length ps; 2; 3]%nat (encode ps)) [Full; At 0]
  = Ok (vecs (fst <$> ps)).
Proof.
  unfold getitem. cbn [numpy.shape flat]. rewrite gather_first.
  cbn [slice_shape Full slice_bounds snd norm_index]. simpl.
  rewrite Nat.sub_0_r. unfold vecs. rewrite length_fmap. do 2 f_equal.
  induction ps as [|e ps IH]; [done|]. simpl. by rewrite IH.
Qed.

Lemma getitem_second ps :
  getitem (mk_nd [length ps; 2; 3]%nat (encode ps)) [Full; At 1]
  = Ok (vecs (snd <$> ps)).
Proof.
  unfold getitem. cbn [numpy.shape flat]. rewrite gather_second.
  cbn [slice_shape Full slice_bounds snd norm_index]. simpl.
  rewrite Nat.sub_0_r. unfold vecs. rewrite length_fmap. do 2 f_equal.
  induction ps as [|e ps IH]; [done|]. simpl. by rewrite IH.
Qed.

Lemma getitem_all (rs : list Q) :
  getitem (mk_nd [length rs] rs) [Full] = Ok (mk_nd [length rs] rs).
Proof.
  unfold getitem. cbn [numpy.shape flat]. rewrite gather_all.
  cbn [slice_shape Full slice_bounds snd]. by rewrite Nat.sub_0_r.
Qed.

Lemma length_flat_map_vlist vs : length (flat_map vlist vs) = (length vs * 3)%nat.
Proof.
  induction vs as [|v vs IH]; [done|]. simpl.
  rewrite length_app, vlist_length, IH. lia.
Qed.

Lemma chunks_singletons (l : list Q) : chunks 1 (length l) l = (λ x, [x]) <$> l.
Proof. induction l as [|x l IH]; [done|]. simpl. by rewrite drop_0, IH. Qed.




Lemma zip_with_vlist f u w : zip_with f (vlist u) (vlist w) = vlist (vmap2 f u w).
Proof. by destruct u as [[a b] c], w as [[x y] z]. Qed.

Lemma foldl_rows f v vs :
  foldl (zip_with f) (vlist v) (vlist <$> vs) = vlist (foldl (vmap2 f) v vs).
Proof.
  revert v. induction vs as [|w vs IH]; intros v; [done|]. simpl.
  by rewrite zip_with_vlist, IH.
Qed.

Lemma reduce0_rows op f v vs :
  reduce0 op f (vecs (v :: vs)) = Ok (mk_nd [3%nat] (vlist (foldl (vmap2 f) v vs))).
Proof.
  unfold reduce0, vecs. cbn [numpy.shape flat].
  change (numpy.size [3%nat]) with 3%nat.
  rewrite chunks_flat_map by apply vlist_length.
  cbn [fmap list_fmap]. by rewrite foldl_rows.
Qed.


Lemma stack_pair u w :
  stack [mk_nd [3%nat] (vlist u); mk_nd [3%nat] (vlist w)]
  = Ok (mk_nd [2; 3]%nat (vlist u ++ vlist w)).
Proof. by destruct u as [[a b] c], w as [[x y] z]. Qed.



Lemma released_buffers b a B s :
  buffers (released b a B s) = <[b := mk_Buffer a (element_type B) false]> (buffers s).
Proof. reflexivity. Qed.


Section extremes.
Context (f : Q → Q → Q) (R : Q → Q → Prop).
Hypothesis f_selects : ∀ a b, (f a b == a)%Q ∨ (f a b == b)%Q.
Hypothesis f_bounds : ∀ a b, R (f a b) a ∧ R (f a b) b.
Hypothesis R_refl : ∀ a, R a a.
Hypothesis R_trans : ∀ a b c, R a b → R b c → R a c.

Lemma is_extreme_head m a b l :
  is_extreme R m (f a b :: l) → is_extreme R m (a :: b :: l).
Proof.
  intros [(x & Hx & Hm) Hall]. split.
  - apply elem_of_cons in Hx as [->|Hx].
    + destruct (f_selects a b) as [H|H].
      * exists a. split; [by left|]. by rewrite Hm.
      * exists b. split; [right; by left|]. by rewrite Hm.
    + exists x. split; [by do 2 right|done].
  - intros y Hy. assert (Hf : R m (f a b)) by (apply Hall; by left).
    destruct (f_bounds a b) as [Ha Hb].
    apply elem_of_cons in Hy as [->|Hy]; [by eapply R_trans|].
    apply elem_of_cons in Hy as [->|Hy]; [by eapply R_trans|].
    apply Hall. by right.
Qed.

Lemma is_extreme_app m1 m2 l1 l2 :
  is_extreme R m1 l1 → is_extreme R m2 l2 → is_extreme R (f m1 m2) (l1 ++ l2).
Proof.
  intros [(x1 & Hx1 & Hm1) Hall1] [(x2 & Hx2 & Hm2) Hall2].
  destruct (f_bounds m1 m2) as [Hb1 Hb2]. split.
  - destruct (f_selects m1 m2) as [H|H].
    + exists x1. split; [apply elem_of_app; by left|]. by rewrite H.
    + exists x2. split; [apply elem_of_app; by right|]. by rewrite H.
  - intros x [Hx|Hx]%elem_of_app.
    + eapply R_trans; [exact Hb1|by apply Hall1].
    + eapply R_trans; [exact Hb2|by apply Hall2].
Qed.

Lemma coord_vmap2 k u w :
  (k < 3)%nat → coord k (vmap2 f u w) = f (coord k u) (coord k w).
Proof.
  intros Hk. destruct u as [[a b] c], w as [[x y] z].
  by destruct k as [|[|[|k]]]; [..|lia].
Qed.

Lemma is_extreme_foldl k v vs :
  (k < 3)%nat →
  is_extreme R (coord k (foldl (vmap2 f) v vs)) (coord k <$> v :: vs).
Proof.
  intros Hk. revert v. induction vs as [|w vs IH]; intros v.
  - split; [exists (coord k v); split; [by left|reflexivity]|].
    intros x ->%list_elem_of_singleton. apply R_refl.
  - cbn [foldl fmap list_fmap]. apply is_extreme_head.
    rewrite <- coord_vmap2 by done. apply (IH (vmap2 f v w)).
Qed.

Lemma is_extreme_extreme k vs :
  (k < 3)%nat → vs ≠ [] → is_extreme R (coord k (extreme f vs)) (coord k <$> vs).
Proof. intros Hk Hne. destruct vs as [|v vs]; [done|]. by apply is_extreme_foldl. Qed.

End extremes.

Lemma is_extreme_Permutation R m l l' :
  l ≡ₚ l' → is_extreme R m l → is_extreme R m l'.
Proof.
  intros Hp [(x & Hx & Hm) Hall]. split.
  - exists x. by rewrite <- Hp.
  - intros y Hy. apply Hall. by rewrite Hp.
Qed.

Lemma coord_vshift op k u r :
  (k < 3)%nat → coord k (vshift op u r) = op (coord k u) r.
Proof.
  intros Hk. destruct u as [[a b] c].
  by destruct k as [|[|[|k]]]; [..|lia].
Qed.



Lemma Qmin_selects a b : (Qmin a b == a)%Q ∨ (Qmin a b == b)%Q.
Proof. destruct (Q.min_spec a b) as [[_ H]|[_ H]]; auto. Qed.

Lemma Qmax_selects a b : (Qmax a b == a)%Q ∨ (Qmax a b == b)%Q.
Proof. destruct (Q.max_spec a b) as [[_ H]|[_ H]]; auto. Qed.





(** C9 (as amended): on a Cylinder geometry with N = 0 the reduction over
    the empty set is not guarded: [get_extents()] raises numpy's error for
    a reduction over a zero-size array, and returns no extents. *)
Theorem Cylinder_get_extents_empty g s :
  holds_cylinders g s [] [] →
  snd (Cylinder.get_extents g s) = Raise (ValueError (zero_size_msg "minimum")).
Proof.
  intros (G & p & r & c & Bp & Br & HG & Hk & Hp & Hr & HBp & HBr & _).
  destruct g as [g]. simpl in HG.
  assert (Hpr : p ≠ r).
  { intros ->. rewrite Hp in Hr. injection Hr as <-. rewrite HBp in HBr.
    discriminate. }
  unfold Cylinder.get_extents.
  unfold bind at 1. erewrite points_eval by done.
  unfold bind at 1. rewrite (getitem_eval _ _ _ Bp) by done.
  rewrite HBp, (getitem_first []). rewrite <- HBp. cbn [util.buf].
  set (s1 := released p (contents Bp) Bp s).
  assert (Hp1 : buffers s1 !! p = Some (mk_Buffer (contents Bp) (element_type Bp) false))
    by apply lookup_insert_eq.
  unfold bind at 1. erewrite points_eval by done.
  unfold bind at 1.
  rewrite (getitem_eval (util.mk_array p (Some (mk_Geometry g))) _ _ _ Hp1).
  cbn [contents util.buf]. rewrite HBp, (getitem_second []).
  set (s2 := released p _ _ s1).
  assert (Hr2 : buffers s2 !! r = Some Br).
  { unfold s2, s1. rewrite !released_buffers. by rewrite !lookup_insert_ne. }
  unfold bind at 1. erewrite radius_eval by done.
  unfold bind at 1.
  rewrite (getitem_eval (util.mk_array r (Some (mk_Geometry g))) _ _ _ Hr2).
  cbn [util.buf]. rewrite HBr, (getitem_all []).
  reflexivity.
Qed.

Lemma nothing_holds : holds_cylinders nothing nothing_state [] [].
Proof.
  exists (mk_NativeGeometry (GeometryCylinder 0 1 2) (material.Material 0 1 (1, 0, 1)%Q)
            (material.Material 0 1 (0, 0, 0)%Q) 0), 0%nat, 1%nat, 2%nat,
    (mk_Buffer (mk_nd [0; 2; 3]%nat []) float32 false),
    (mk_Buffer (mk_nd [0]%nat []) float32 false).
  repeat split; by vm_compute.
Qed.

Lemma Cylinder_get_extents_empty_witness :
  holds_cylinders nothing nothing_state [] [] ∧
  snd (Cylinder.get_extents nothing nothing_state)
  = Raise (ValueError (zero_size_msg "minimum")).
Proof.
  split; [exact nothing_holds|].
  exact (Cylinder_get_extents_empty nothing nothing_state nothing_holds).
Defined.

(** C9, counterexample to the claim as stated: on the Cylinder geometry
    with N = 0 constructed in the empty scene, [get_extents()] is not
    guarded; the reduction over the empty set is attempted and fails. *)
Lemma Cylinder_get_extents_not_guarded : ¬ guarded nothing nothing_state.
Proof. intros H. by apply (H "minimum"). Qed.

(** ** Mesh *)

(** C6, the code at the failing input: for the triangle (0,0,0), (1,0,0),
    (0,2,0) with one instance at the origin, the per-axis bounding box of
    the template translated by the position is [[0,0,0],[1,2,0]], but
    [get_extents()] returns [[0,0,0],[2,2,2]]: [vertices[:,k]] is a column
    of coordinates, so each reduction yields one number and the bound on
    every axis is the least (greatest) coordinate over all axes. *)
Theorem Mesh_get_extents_triangle :
  snd ((m <- triangle_program ;; Mesh.get_extents m) empty_state)
  = Ok (mk_nd [2; 3]%nat [0; 0; 0; 2; 2; 2]%Q) ∧
  rbind (getitem triangle_vertices [Full; At 0]) max0 = Ok (scalar 1) ∧
  rbind (getitem triangle_vertices [Full; At 1]) max0 = Ok (scalar 2) ∧
  rbind (getitem triangle_vertices [Full; At 2]) max0 = Ok (scalar 0) ∧
  max0 triangle_vertices = Ok (vector [1; 2; 0]%Q).
Proof. repeat split; by vm_compute. Qed.

Lemma setitem_issues_one_update_witness :
  util.__setitem__ cube_radius [At 0] (scalar 1) cube_state
  = (fst (util.__setitem__ cube_radius [At 0] (scalar 1) cube_state), Ok tt) ∧
  updates (issued cube_state
             (fst (util.__setitem__ cube_radius [At 0] (scalar 1) cube_state)))
  = [0%nat].
Proof.
  assert (H : util.__setitem__ cube_radius [At 0] (scalar 1) cube_state
    = (fst (util.__setitem__ cube_radius [At 0] (scalar 1) cube_state), Ok tt))
    by (by vm_compute).
  split; [exact H|].
  exact (proj2 (setitem_issues_one_update cube_radius [At 0] (scalar 1) cube_state _ H)).
Defined.

(** ** Further properties of buffer views *)

Lemma same_data_refl s : same_data s s.
Proof. by repeat split. Qed.

Lemma same_data_held b B s : buffers s !! b = Some B → same_data s (held b B s).
Proof.
  intros HB. unfold same_data, buffer_contents, held. simpl.
  repeat split; intros b'; destruct (decide (b = b')) as [<-|Hne];
    by rewrite ?lookup_insert_eq, ?lookup_insert_ne, ?HB by done.
Qed.

Lemma same_data_released b B s :
  buffers s !! b = Some B → same_data s (released b (contents B) B s).
Proof.
  intros HB. unfold same_data, buffer_contents, released. simpl.
  repeat split; intros b'; destruct (decide (b = b')) as [<-|Hne];
    by rewrite ?lookup_insert_eq, ?lookup_insert_ne, ?HB by done.
Qed.

Lemma issued_refl s : issued s s = [].
Proof. unfold issued. apply drop_all. Qed.

(** X1: the reading operations of a view ([v[slice]], [v.shape],
    [v.dtype]) change no buffer contents, no geometry and not the scene,
    and never issue update(); this holds whether they return or raise. *)
Theorem read_changes_nothing self o s :
  is_read o = true →
  same_data s (fst (perform self o s)) ∧
  log (fst (perform self o s)) = log s ++ issued s (fst (perform self o s)) ∧
  updates (issued s (fst (perform self o s))) = [].
Proof.
  intros Hread.
  destruct (buffers s !! util.buf self) as [B|] eqn:HB.
  - destruct o as [sl|sl data| |]; [|done| |]; unfold perform, bind.
    + rewrite (getitem_eval _ _ _ B HB).
      destruct (getitem (contents B) sl); cbn [fst].
      * split; [by apply same_data_released|].
        by rewrite (issued_app s _ [map_call (util.buf self); unmap_call (util.buf self)]).
      * split; [by apply same_data_held|].
        by rewrite (issued_app s _ [map_call (util.buf self)]).
    + rewrite (shape_eval _ _ B HB). cbn [fst].
      split; [by apply same_data_released|].
      by rewrite (issued_app s _ [map_call (util.buf self); unmap_call (util.buf self)]).
    + rewrite (dtype_eval _ _ B HB). cbn [fst].
      split; [by apply same_data_released|].
      by rewrite (issued_app s _ [map_call (util.buf self); unmap_call (util.buf self)]).
  - destruct o as [sl|sl data| |]; [|done| |]; unfold perform, bind.
    + rewrite getitem_invalid by done. cbn [fst].
      split; [apply same_data_refl|]. by rewrite issued_refl, app_nil_r.
    + rewrite shape_invalid by done. cbn [fst].
      split; [apply same_data_refl|]. by rewrite issued_refl, app_nil_r.
    + rewrite dtype_invalid by done. cbn [fst].
      split; [apply same_data_refl|]. by rewrite issued_refl, app_nil_r.
Qed.

Lemma read_changes_nothing_witness :
  is_read (get [At 0]) = true ∧
  same_data cube_state (fst (perform cube_radius (get [At 0]) cube_state)) ∧
  log (fst (perform cube_radius (get [At 0]) cube_state))
  = log cube_state ++ issued cube_state (fst (perform cube_radius (get [At 0]) cube_state)) ∧
  updates (issued cube_state (fst (perform cube_radius (get [At 0]) cube_state))) = [].
Proof.
  split; [reflexivity|].
  exact (read_changes_nothing cube_radius (get [At 0]) cube_state eq_refl).
Defined.

Lemma setitem_raises_before_copy a sl data e :
  setitem a sl data = Raise e →
  (∃ msg, e = IndexError msg) ∨ (∃ msg, e = ValueError msg).
Proof.
  unfold setitem. destruct (slice_shape sl (numpy.shape a)); [|intros [= <-]; eauto].
  destruct (broadcast_flat _ _ _); [done|intros [= <-]; eauto].
Qed.

(** X2: a write of an array of numbers through a live view that raises
    has changed no buffer contents, no geometry and not the scene, and has
    issued no update().  For a value whose elements are all numbers the
    only failures are an index that is out of bounds (IndexError) and a
    shape that cannot be broadcast to the slice (ValueError), and numpy
    detects both before it copies anything.  (A value with an element that
    numpy cannot convert to a float, such as a string or an integer beyond
    the range of the floats, is not an [ndarray] here; with such a value
    numpy raises in the middle of the copy.) *)
Theorem failed_write_changes_nothing self slice data s s' e :
  live_view self s →
  util.__setitem__ self slice data s = (s', Raise e) →
  same_data s s' ∧ updates (issued s s') = [] ∧
  ((∃ msg, e = IndexError msg) ∨ (∃ msg, e = ValueError msg)).
Proof.
  intros [[B HB] Hg] H. rewrite (setitem_eval _ _ _ _ B HB) in H.
  destruct (setitem (contents B) slice (astype (element_type B) data)) as [a'|e'] eqn:Hset.
  - destruct (util.geom self) as [g|]; [|done].
    destruct Hg as [G HG]. rewrite update_eval in H. simpl in H.
    by rewrite HG in H.
  - injection H as <- <-. split; [by apply same_data_held|]. split.
    + by rewrite (issued_app s _ [map_call (util.buf self)]).
    + by apply setitem_raises_before_copy in Hset.
Qed.

Lemma cube_radius_live : live_view cube_radius cube_state.
Proof. split; by vm_compute; eexists. Qed.

Lemma failed_write_changes_nothing_witness :
  live_view cube_radius cube_state ∧
  util.__setitem__ cube_radius [Full] (vector [1; 2; 3]%Q) cube_state
  = (held 1 (mk_Buffer (mk_nd [12]%nat (replicate 12 (1 # 2))) float32 false) cube_state,
     Raise (ValueError "could not broadcast input array")) ∧
  same_data cube_state
    (held 1 (mk_Buffer (mk_nd [12]%nat (replicate 12 (1 # 2))) float32 false) cube_state).
Proof.
  assert (H : util.__setitem__ cube_radius [Full] (vector [1; 2; 3]%Q) cube_state
    = (held 1 (mk_Buffer (mk_nd [12]%nat (replicate 12 (1 # 2))) float32 false) cube_state,
       Raise (ValueError "could not broadcast input array"))) by (by vm_compute).
  split; [exact cube_radius_live|]. split; [exact H|].
  exact (proj1 (failed_write_changes_nothing cube_radius [Full] (vector [1; 2; 3]%Q)
                  cube_state _ _ cube_radius_live H)).
Defined.

Lemma gather_Full n sh' l :
  length l = (n * size sh')%nat → gather [Full] (n :: sh') l = l.
Proof.
  intros Hl. unfold Full. cbn [gather slice_bounds]. rewrite Nat.sub_0_r, drop_0.
  rewrite take_ge by (by rewrite length_chunks).
  change (map (gather [] sh')) with (map (@id (list Q))). rewrite map_id.
  by apply concat_chunks.
Qed.

Lemma getitem_Full a n sh' :
  numpy.shape a = n :: sh' → length (flat a) = size (n :: sh') →
  getitem a [Full] = Ok a.
Proof.
  intros Hs Hl. unfold getitem. rewrite Hs.
  cbn [slice_shape Full slice_bounds snd]. rewrite Nat.sub_0_r.
  rewrite gather_Full by done. destruct a. simpl in *. by subst.
Qed.



Lemma norm_index_outside i n :
  (Z.of_nat n <= i ∨ i < - Z.of_nat n)%Z → norm_index i n = None.
Proof.
  intros H. unfold norm_index.
  destruct (0 <=? i)%Z eqn:H0, (i <? Z.of_nat n)%Z eqn:H1,
    (- Z.of_nat n <=? i)%Z eqn:H2, (i <? 0)%Z eqn:H3; simpl; try done; lia.
Qed.

(** X4: an integer index outside [-n, n) on the leading axis of a buffer
    of leading dimension n makes both the read [v[i, ...]] and the write
    [v[i, ...] = data] raise IndexError. *)
Theorem index_out_of_bounds self i rest data s B n sh' :
  buffers s !! util.buf self = Some B →
  numpy.shape (contents B) = n :: sh' →
  (Z.of_nat n <= i ∨ i < - Z.of_nat n)%Z →
  snd (util.__getitem__ self (At i :: rest) s)
  = Raise (IndexError "index out of bounds or too many indices") ∧
  snd (util.__setitem__ self (At i :: rest) data s)
  = Raise (IndexError "index out of bounds or too many indices").
Proof.
  intros HB Hs Hi.
  rewrite (getitem_eval _ _ _ B HB), (setitem_eval _ _ _ _ B HB).
  unfold getitem, setitem. rewrite Hs. cbn [slice_shape].
  by rewrite (norm_index_outside i n Hi).
Qed.

Lemma index_out_of_bounds_witness :
  buffers cube_state !! util.buf cube_radius
  = Some (mk_Buffer (mk_nd [12]%nat (replicate 12 (1 # 2))) float32 false) ∧
  (Z.of_nat 12 <= 12 ∨ 12 < - Z.of_nat 12)%Z ∧
  snd (util.__getitem__ cube_radius [At 12] cube_state)
  = Raise (IndexError "index out of bounds or too many indices") ∧
  snd (util.__setitem__ cube_radius [At 12] (scalar 1) cube_state)
  = Raise (IndexError "index out of bounds or too many indices").
Proof.
  assert (HB : buffers cube_state !! util.buf cube_radius
    = Some (mk_Buffer (mk_nd [12]%nat (replicate 12 (1 # 2))) float32 false))
    by (by vm_compute).
  assert (Hi : (Z.of_nat 12 <= 12 ∨ 12 < - Z.of_nat 12)%Z) by (left; reflexivity).
  split; [exact HB|]. split; [exact Hi|].
  exact (index_out_of_bounds cube_radius 12 [] (scalar 1) cube_state _ 12 []
           HB eq_refl Hi).
Defined.





(** ** Further properties of Box *)

Ltac solve_points :=
  cbv -[Qplus Qminus Qmult Qdiv Qopp Qinv Qeq];
  repeat match goal with
         | |- Forall2 _ _ _ => constructor
         end;
  field.

(** X6: for every box without tilt, [Lx, Ly, Lz, 0, 0, 0] (a box [L] is
    the box [L, L, L, 0, 0, 0] and a box [Lx, Ly, Lz] is
    [Lx, Ly, Lz, 0, 0, 0]), the 12 edges of [_generate_points] run along
    the axes: edge vectors a1 = (Lx, 0, 0), a2 = (0, Ly, 0) and
    a3 = (0, 0, Lz), four edges along each, in the fixed order a1 a2 a3 a3
    a2 a1 a3 a1 a2 a2 a1 a3.  (With tilt factors the coordinates are sums
    of products that the source rounds, and the arithmetic here is
    exact.) *)
Theorem generate_points_edge_vectors Lx Ly Lz :
  ∃ pts,
    Box._generate_points [Lx; Ly; Lz; 0; 0; 0]%Q = Ok pts ∧
    let a1 := [Lx; 0; 0]%Q in
    let a2 := [0; Ly; 0]%Q in
    let a3 := [0; 0; Lz]%Q in
    points_equal (edge_vectors pts) [a1; a2; a3; a3; a2; a1; a3; a1; a2; a2; a1; a3].
Proof.
  eexists. split; [reflexivity|].
  solve_points.
Qed.

(** X7: for every box without tilt the box of [_generate_points] is
    centred at the origin: on each axis the coordinates of the 24 edge
    endpoints sum to zero (every corner is the endpoint of three edges, so
    this is three times the sum over the 8 corners). *)
Theorem generate_points_centred Lx Ly Lz :
  ∃ pts,
    Box._generate_points [Lx; Ly; Lz; 0; 0; 0]%Q = Ok pts ∧
    ∀ k, (k < 3)%nat → (axis_sum k (endpoints pts) == 0)%Q.
Proof.
  eexists. split; [reflexivity|].
  intros k Hk; destruct k as [|[|[|k]]]; try lia;
    cbv -[Qplus Qminus Qmult Qdiv Qopp Qinv Qeq];
    field.
Qed.

(** X8: for every orthorhombic box parameter (Lx, Ly, Lz) the endpoints
    of the 12 edges are the corners (+-Lx/2, +-Ly/2, +-Lz/2), in the order
    A-B, A-C, A-D, B-E, B-G, C-G, C-F, D-E, D-F, E-H, F-H, G-H of the corner
    names of the source. *)
Theorem generate_points_orthorhombic Lx Ly Lz :
  ∃ pts,
    Box._generate_points [Lx; Ly; Lz] = Ok pts ∧
    points_equal (endpoints pts)
      ((λ sg, zip_with Qmult sg [Lx / 2; Ly / 2; Lz / 2]%Q) <$> corner_signs).
Proof.
  eexists. split; [reflexivity|].
  solve_points.
Qed.

(** ** Further properties of the constructor and the setter of Box *)

Lemma with_color_mix_scene g v s :
  scene_geometry (with_color_mix g v s) = scene_geometry s.
Proof. unfold with_color_mix. by destruct (geometries s !! g). Qed.

(** A completed [Box.__init__], by the values written to the buffers. *)
Lemma Box_init_completes mix0 box radius color s pts ra co :
  Box._generate_points box = Ok pts →
  setitem (zeros [12]%nat) [Full] (astype float32 (default (vector [1 # 2]) radius))
  = Ok ra →
  match color with
  | Some v => setitem (zeros [12; 2; 3]%nat) [Full] (astype float32 v) = Ok co
  | None => co = zeros [12; 2; 3]%nat
  end →
  ∃ s', Box.__init__ mix0 box radius color s
        = (s', Ok (Box.mk (mk_Geometry (geometry_handle s)) box)) ∧
        points_of (mk_Geometry (geometry_handle s)) s' = Some (astype float32 pts) ∧
        radius_of (mk_Geometry (geometry_handle s)) s' = Some ra ∧
        color_of (mk_Geometry (geometry_handle s)) s' = Some co ∧
        scene_geometry s' = scene_geometry s ++ [geometry_handle s].
Proof.
  intros Hpts Hra Hco.
  destruct (Box.__init__ mix0 box radius color s) as [s' res] eqn:Hinit.
  assert (Hres : res = Ok (Box.mk (mk_Geometry (geometry_handle s)) box) ∧
                 scene_geometry s' = scene_geometry s ++ [geometry_handle s] ∧
                 buffers s' !! color_handle 12 s = Some (mk_Buffer co float32 false) ∧
                 buffers s' !! radius_handle 12 s = Some (mk_Buffer ra float32 false)).
  { rewrite Box_init_eval in Hinit. cbv zeta in Hinit.
    rewrite Hpts, Hra in Hinit.
    destruct (fresh_handles 12 s) as (_ & _ & _ & Hpr & Hpc & Hrc).
    destruct (box_allocated_buffers mix0 s) as (Hp & Hr & Hc).
    set (g := geometry_handle s) in *. set (p := points_handle s) in *.
    set (r := radius_handle 12 s) in *. set (c := color_handle 12 s) in *.
    set (s1 := box_allocated mix0 s) in *.
    set (pts32 := astype float32 pts) in *.
    assert (Hr2 : buffers (written g p pts32 s1) !! r = Some (zero_buffer [12]%nat)).
    { rewrite (written_buffers _ _ _ _ _ Hp). by rewrite lookup_insert_ne. }
    assert (Hc2 : buffers (written g p pts32 s1) !! c = Some (zero_buffer [12; 2; 3]%nat)).
    { rewrite (written_buffers _ _ _ _ _ Hp). by rewrite lookup_insert_ne. }
    set (s2 := written g p pts32 s1) in *.
    assert (Hr3 : buffers (written g r ra s2) !! r = Some (mk_Buffer ra float32 false)).
    { rewrite (written_buffers _ _ _ _ _ Hr2). apply lookup_insert_eq. }
    assert (Hc3 : buffers (written g r ra s2) !! c = Some (zero_buffer [12; 2; 3]%nat)).
    { rewrite (written_buffers _ _ _ _ _ Hr2). by rewrite lookup_insert_ne. }
    assert (Hsc : scene_geometry (written g r ra s2) = scene_geometry s ++ [g]).
    { unfold s2. by rewrite !written_scene. }
    set (s3 := written g r ra s2) in *.
    destruct color as [v|].
    - rewrite Hco in Hinit. injection Hinit as <- <-.
      rewrite with_color_mix_scene, written_scene, with_color_mix_buffers.
      rewrite (written_buffers _ _ _ _ _ Hc3).
      split; [done|]. split; [done|]. split; [apply lookup_insert_eq|].
      by rewrite lookup_insert_ne.
    - injection Hinit as <- <-. subst co. done. }
  destruct Hres as (-> & Hsc & Hc & Hr).
  destruct (Box_init_Ok _ _ _ _ _ _ _ Hinit) as (_ & pts' & ra' & co' & Hpts' & HG & Hp & _).
  rewrite Hpts in Hpts'. injection Hpts' as <-.
  exists s'. split; [done|]. split; [|split; [|split; [|done]]].
  - eapply points_of_lookup; [done..|]. unfold buffer_contents. by rewrite Hp.
  - eapply radius_of_lookup; [done..|]. unfold buffer_contents. by rewrite Hr.
  - eapply color_of_lookup; [done..|]. unfold buffer_contents. by rewrite Hc.
Qed.

(** X9: with neither radius nor color given, [Box] completes for every
    accepted box parameter and leaves every edge with radius 0.5 and every
    endpoint black (the zeros of the allocation), and the new geometry is
    the last of the scene. *)
Theorem Box_init_defaults mix0 box s :
  accepted_length (length box) = true →
  ∃ s', Box.__init__ mix0 box None None s
        = (s', Ok (Box.mk (mk_Geometry (geometry_handle s)) box)) ∧
        radius_of (mk_Geometry (geometry_handle s)) s'
        = Some (mk_nd [12]%nat (replicate 12 (1 # 2))) ∧
        color_of (mk_Geometry (geometry_handle s)) s' = Some (zeros [12; 2; 3]%nat) ∧
        scene_geometry s' = scene_geometry s ++ [geometry_handle s].
Proof.
  intros Hacc. rewrite <- generate_points_accepted in Hacc.
  destruct (Box._generate_points box) as [pts|] eqn:Hpts; [|done].
  destruct (Box_init_completes mix0 box None None s pts _ _ Hpts
              default_radius_written eq_refl) as (s' & Hinit & _ & Hr & Hc & Hsc).
  eauto.
Qed.

Lemma Box_init_defaults_witness :
  accepted_length (length [2; 3; 4]%Q) = true ∧
  ∃ s', Box.__init__ 0 [2; 3; 4]%Q None None empty_state
        = (s', Ok (Box.mk (mk_Geometry (geometry_handle empty_state)) [2; 3; 4]%Q)) ∧
        radius_of (mk_Geometry (geometry_handle empty_state)) s'
        = Some (mk_nd [12]%nat (replicate 12 (1 # 2))) ∧
        color_of (mk_Geometry (geometry_handle empty_state)) s'
        = Some (zeros [12; 2; 3]%nat) ∧
        scene_geometry s' = scene_geometry empty_state ++ [geometry_handle empty_state].
Proof.
  split; [reflexivity|].
  exact (Box_init_defaults 0 [2; 3; 4]%Q empty_state eq_refl).
Defined.




(** X11: the box setter with a parameter whose length is not 1, 3 or 6
    raises the length error before it touches the backend: no buffer is
    mapped or written and no call is issued, the state is the one before. *)
Theorem set_box_checks_box_length self b s :
  accepted_length (length b) = false →
  Box.set_box self b s = (s, Raise (RuntimeError Box.box_length_msg)).
Proof.
  intros Hrej. unfold Box.set_box, bind, lift. cbn [Box._box].
  by rewrite (generate_points_rejected b Hrej).
Qed.

Lemma set_box_checks_box_length_witness :
  accepted_length (length [1; 2]%Q) = false ∧
  Box.set_box cube [1; 2]%Q cube_state
  = (cube_state, Raise (RuntimeError Box.box_length_msg)).
Proof.
  split; [reflexivity|].
  exact (set_box_checks_box_length cube [1; 2]%Q cube_state eq_refl).
Defined.

(** X12: a [Box] whose construction fails on the length of the box
    parameter has nevertheless been added to the scene: the constructor of
    Cylinder has completed before the check, so the scene ends with a new
    geometry of 12 cylinders whose endpoints and radii are all zero. *)
Theorem failed_Box_stays_in_scene mix0 box radius color s :
  accepted_length (length box) = false →
  let s' := fst (Box.__init__ mix0 box radius color s) in
  let g := mk_Geometry (geometry_handle s) in
  scene_geometry s' = scene_geometry s ++ [_geometry g] ∧
  geometries s !! _geometry g = None ∧
  points_of g s' = Some (zeros [12; 2; 3]%nat) ∧
  radius_of g s' = Some (zeros [12]%nat).
Proof.
  intros Hrej. cbv zeta. rewrite Box_init_eval. cbv zeta.
  rewrite (generate_points_rejected box Hrej). cbn [fst].
  destruct (box_allocated_buffers mix0 s) as (Hp & Hr & Hc).
  pose proof (box_allocated_geometry mix0 s) as HG.
  split; [done|]. split; [apply geometry_handle_fresh|]. split.
  - eapply points_of_lookup; [done..|]. unfold buffer_contents. by rewrite Hp.
  - eapply radius_of_lookup; [done..|]. unfold buffer_contents. by rewrite Hr.
Qed.

Lemma failed_Box_stays_in_scene_witness :
  accepted_length (length [2; 2]%Q) = false ∧
  scene_geometry (fst (Box.__init__ 0 [2; 2]%Q None None empty_state)) = [0%nat].
Proof.
  split; [reflexivity|].
  exact (proj1 (failed_Box_stays_in_scene 0 [2; 2]%Q None None empty_state eq_refl)).
Defined.

(** ** Constructors and the scene *)

Lemma keeps_scene_ret {A} (a : A) : keeps_scene (ret a).
Proof. done. Qed.

Lemma keeps_scene_raise {A} e : keeps_scene (@raise A e).
Proof. done. Qed.

Lemma keeps_scene_lift {A} (r : result A) : keeps_scene (lift r).
Proof. done. Qed.

Lemma keeps_scene_bind {A B} (m : M A) (k : A → M B) :
  keeps_scene m → (∀ a, keeps_scene (k a)) → keeps_scene (bind m k).
Proof.
  intros Hm Hk s. unfold bind. specialize (Hm s).
  destruct (m s) as [s' [a|e]]; simpl in *; [|done]. by rewrite Hk.
Qed.

Lemma keeps_scene_when_Some {A} (o : option A) (k : A → M unit) :
  (∀ a, keeps_scene (k a)) → keeps_scene (when_Some o k).
Proof. intros Hk. destruct o; [apply Hk|done]. Qed.

Lemma keeps_scene_get_buffer b : keeps_scene (Backend.get_buffer b).
Proof. intros s. unfold Backend.get_buffer. by destruct (buffers s !! b). Qed.

Lemma keeps_scene_get_geometry g : keeps_scene (Backend.get_geometry g).
Proof. intros s. unfold Backend.get_geometry. by destruct (geometries s !! g). Qed.

Create HintDb scene.
#[local] Hint Resolve keeps_scene_ret keeps_scene_raise keeps_scene_lift
  keeps_scene_get_buffer keeps_scene_get_geometry : scene.
#[local] Hint Extern 1 (keeps_scene (modify _)) => (intros ?; reflexivity) : scene.
#[local] Hint Extern 2 (keeps_scene (bind _ _)) =>
  (apply keeps_scene_bind; [|intros ?]) : scene.
#[local] Hint Extern 2 (keeps_scene (when_Some _ _)) =>
  (apply keeps_scene_when_Some; intros ?) : scene.
#[local] Hint Extern 3 (keeps_scene (match ?x with _ => _ end)) => destruct x : scene.

Lemma keeps_scene_map b : keeps_scene (Backend.map b).
Proof. unfold Backend.map, Backend.put_buffer. auto 20 with scene. Qed.

Lemma keeps_scene_unmap b : keeps_scene (Backend.unmap b).
Proof. unfold Backend.unmap, Backend.put_buffer. auto 20 with scene. Qed.

Lemma keeps_scene_update g : keeps_scene (Backend.update g).
Proof. unfold Backend.update. auto 20 with scene. Qed.

Lemma keeps_scene_setitem self sl data : keeps_scene (util.__setitem__ self sl data).
Proof.
  pose proof keeps_scene_map. pose proof keeps_scene_unmap. pose proof keeps_scene_update.
  unfold util.__setitem__, util.numpy_array, util.assign, Backend.put_buffer.
  auto 30 with scene.
Qed.

Lemma keeps_scene_new_buffer sh : keeps_scene (Backend.new_buffer sh).
Proof. done. Qed.

Lemma keeps_scene_new_geometry G : keeps_scene (Backend.new_geometry G).
Proof. done. Qed.

Lemma keeps_scene_setMaterial g m : keeps_scene (Backend.setMaterial g m).
Proof. unfold Backend.setMaterial, Backend.put_geometry. auto 20 with scene. Qed.

Lemma keeps_scene_setOutlineMaterial g m : keeps_scene (Backend.setOutlineMaterial g m).
Proof. unfold Backend.setOutlineMaterial, Backend.put_geometry. auto 20 with scene. Qed.

Lemma keeps_scene_setOutlineWidth g w : keeps_scene (Backend.setOutlineWidth g w).
Proof. unfold Backend.setOutlineWidth, Backend.put_geometry. auto 20 with scene. Qed.

#[local] Hint Resolve keeps_scene_new_buffer keeps_scene_new_geometry
  keeps_scene_setMaterial keeps_scene_setOutlineMaterial keeps_scene_setOutlineWidth
  keeps_scene_setitem : scene.

Lemma joins_scene_bind {A B} (h : B → nat) (m : M A) (k : A → M B) :
  keeps_scene m → (∀ a, joins_scene_on_return h (k a)) →
  joins_scene_on_return h (bind m k).
Proof.
  intros Hm Hk s. unfold bind. specialize (Hm s).
  destruct (m s) as [s1 [a|e]]; simpl in *; [|done].
  specialize (Hk a s1). destruct (k a s1) as [s2 [b|e]]; by rewrite <- Hm.
Qed.

Lemma joins_scene_append {A} (h : A → nat) (a : A) :
  joins_scene_on_return h (modify (set_scene_geometry (λ l, l ++ [h a])) ;; ret a).
Proof. done. Qed.

(** X13: the constructor of Cylinder appends the new geometry to the
    geometries of the scene exactly when it returns: whatever the
    arguments and the state, the scene ends with the new native handle
    after a return, and is the one before after any exception. *)
Theorem Cylinder_init_joins_scene points0 radius0 color0 N mat omat w s :
  match Cylinder.__init__ points0 radius0 color0 N mat omat w s with
  | (s', Ok self) => scene_geometry s' = scene_geometry s ++ [_geometry self]
  | (s', Raise _) => scene_geometry s' = scene_geometry s
  end.
Proof.
  revert s. change (joins_scene_on_return _geometry
                      (Cylinder.__init__ points0 radius0 color0 N mat omat w)).
  unfold Cylinder.__init__.
  apply joins_scene_bind; [destruct N, points0; auto with scene|]. intros n.
  apply joins_scene_bind.
  { unfold Cylinder.GeometryCylinder. auto 20 with scene. }
  intros g.
  unfold GeometryBase.set_material, GeometryBase.set_outline_material,
    GeometryBase.set_outline_width, Cylinder.points, Cylinder.radius, Cylinder.color,
    Backend.getPointsBuffer, Backend.getRadiusBuffer, Backend.getColorBuffer.
  repeat (apply joins_scene_bind; [solve [auto 30 with scene]|intros _]).
  apply (joins_scene_append _geometry (mk_Geometry g)).
Qed.

(** X14: the constructor of Mesh likewise. *)
Theorem Mesh_init_joins_scene vertices0 position0 orientation0 color0 N mat omat w s :
  match Mesh.__init__ vertices0 position0 orientation0 color0 N mat omat w s with
  | (s', Ok self) => scene_geometry s' = scene_geometry s ++ [_geometry (Mesh.geometry self)]
  | (s', Raise _) => scene_geometry s' = scene_geometry s
  end.
Proof.
  revert s. change (joins_scene_on_return (λ m, _geometry (Mesh.geometry m))
                      (Mesh.__init__ vertices0 position0 orientation0 color0 N mat omat w)).
  unfold Mesh.__init__.
  apply joins_scene_bind; [destruct N, position0; auto with scene|]. intros n.
  apply joins_scene_bind.
  { unfold Mesh.GeometryMesh. auto 20 with scene. }
  intros g.
  unfold GeometryBase.set_material, GeometryBase.set_outline_material,
    GeometryBase.set_outline_width, Mesh.position, Mesh.orientation, Mesh.color,
    Backend.getPositionBuffer, Backend.getOrientationBuffer, Backend.getColorBuffer.
  repeat (apply joins_scene_bind; [solve [auto 30 with scene]|intros _]).
  apply (joins_scene_append (λ m, _geometry (Mesh.geometry m)) (Mesh.mk (mk_Geometry g) vertices0)).
Qed.

(** ** The constructor of Cylinder *)

Lemma cylinder_created_geometry n mat omat w s :
  geometries (cylinder_created n mat omat w s) !! geometry_handle s
  = Some (mk_NativeGeometry
            (GeometryCylinder (points_handle s) (radius_handle n s) (color_handle n s))
            mat omat w).
Proof. apply lookup_insert_eq. Qed.

Lemma cylinder_created_buffers n mat omat w s :
  buffers (cylinder_created n mat omat w s) !! points_handle s
  = Some (zero_buffer [n; 2; 3]%nat) ∧
  buffers (cylinder_created n mat omat w s) !! radius_handle n s
  = Some (zero_buffer [n]%nat) ∧
  buffers (cylinder_created n mat omat w s) !! color_handle n s
  = Some (zero_buffer [n; 2; 3]%nat).
Proof.
  destruct (fresh_handles n s) as (_ & _ & _ & Hpr & Hpc & Hrc).
  unfold cylinder_created. simpl.
  repeat split.
  - rewrite lookup_insert_ne by done. rewrite lookup_insert_ne by done.
    apply lookup_insert_eq.
  - rewrite lookup_insert_ne by done. apply lookup_insert_eq.
  - apply lookup_insert_eq.
Qed.

Lemma Cylinder_alloc_eval {A} n mat omat w (k : Geometry → M A) s :
  (g <- Cylinder.GeometryCylinder n ;;
   GeometryBase.set_material (mk_Geometry g) mat ;;
   GeometryBase.set_outline_material (mk_Geometry g) omat ;;
   GeometryBase.set_outline_width (mk_Geometry g) w ;;
   k (mk_Geometry g)) s
  = k (mk_Geometry (geometry_handle s)) (cylinder_created n mat omat w s).
Proof.
  unfold Cylinder.GeometryCylinder, GeometryBase.set_material,
    GeometryBase.set_outline_material, GeometryBase.set_outline_width,
    Backend.new_buffer, Backend.new_geometry, Backend.setMaterial,
    Backend.setOutlineMaterial, Backend.setOutlineWidth, Backend.get_geometry,
    Backend.put_geometry, cylinder_created.
  eval_M.
  rewrite !insert_insert_eq, <- !app_assoc. reflexivity.
Qed.














Lemma setitem_rows_mismatch m n sh' data :
  numpy.shape data = n :: sh' → n ≠ m → n ≠ 1%nat →
  setitem (zeros (m :: sh')) [Full] data
  = Raise (ValueError "could not broadcast input array").
Proof.
  intros Hs Hnm Hn1. unfold setitem. rewrite Hs.
  cbn [numpy.shape zeros slice_shape Full slice_bounds snd length].
  rewrite Nat.sub_0_r, Nat.sub_diag. cbn [strip_ones broadcast_flat length].
  rewrite Nat.ltb_irrefl.
  apply Nat.eqb_neq in Hnm. apply Nat.eqb_neq in Hn1. by rewrite Hnm, Hn1.
Qed.

(** X16: when N is passed and differs from the number of point pairs
    given (which is not 1, so that numpy cannot broadcast them), the
    constructor of Cylinder raises numpy's broadcasting error at
    [self.points[:] = points]: nothing has been written to the points
    buffer, which is left mapped, no [update()] was issued, and the
    geometry, although allocated, is not among the geometries of the
    scene. *)
Theorem Cylinder_init_wrong_N pts n m radius0 color0 mat omat w s :
  numpy.shape pts = [n; 2; 3]%nat → n ≠ m → n ≠ 1%nat →
  let s' := fst (Cylinder.__init__ (Some pts) radius0 color0 (Some m) mat omat w s) in
  snd (Cylinder.__init__ (Some pts) radius0 color0 (Some m) mat omat w s)
  = Raise (ValueError "could not broadcast input array") ∧
  buffer_contents (points_handle s) s' = Some (zeros [m; 2; 3]%nat) ∧
  is_mapped (points_handle s) s' = Some true ∧
  updates (issued s s') = [] ∧
  is_Some (geometries s' !! geometry_handle s) ∧
  scene_geometry s' = scene_geometry s.
Proof.
  intros Hs Hnm Hn1.
  destruct (cylinder_created_buffers m mat omat w s) as (Hp & _ & _).
  pose proof (cylinder_created_geometry m mat omat w s) as HG.
  assert (Hinit : Cylinder.__init__ (Some pts) radius0 color0 (Some m) mat omat w s
                  = (held (points_handle s) (zero_buffer [m; 2; 3]%nat)
                       (cylinder_created m mat omat w s),
                     Raise (ValueError "could not broadcast input array"))).
  { unfold Cylinder.__init__. unfold bind at 1, ret at 1. cbv zeta.
    rewrite (Cylinder_alloc_eval m mat omat w
               (λ self,
                  when_Some (Some pts)
                    (λ v, a <- Cylinder.points self ;; util.__setitem__ a [Full] v) ;;
                  when_Some radius0
                    (λ v, a <- Cylinder.radius self ;; util.__setitem__ a [Full] v) ;;
                  when_Some color0
                    (λ v, a <- Cylinder.color self ;; util.__setitem__ a [Full] v) ;;
                  modify (set_scene_geometry (λ l, l ++ [_geometry self])) ;;
                  ret self)).
    cbn [when_Some]. unfold bind at 1. unfold bind at 1.
    erewrite points_eval by done. erewrite write_eval by done.
    cbn [contents element_type zero_buffer].
    by rewrite (setitem_rows_mismatch m n [2; 3]%nat (astype float32 pts) Hs Hnm Hn1). }
  cbv zeta. rewrite Hinit. cbn [fst snd].
  split; [done|]. split; [|split; [|split; [|split; [|done]]]].
  - unfold buffer_contents, held. cbn [buffers]. by rewrite lookup_insert_eq.
  - unfold is_mapped, held. cbn [buffers]. by rewrite lookup_insert_eq.
  - set (g := geometry_handle s). set (p := points_handle s).
    rewrite (issued_app s _ [setMaterial_call g; setOutlineMaterial_call g;
                             setOutlineWidth_call g; map_call p]).
    + done.
    + unfold held, cylinder_created. cbn [log]. by rewrite <- app_assoc.
  - unfold held. cbn [geometries]. by rewrite HG.
Qed.

Lemma Cylinder_init_wrong_N_witness :
  numpy.shape (mk_nd [2; 2; 3]%nat (replicate 12 1%Q)) = [2; 2; 3]%nat ∧
  snd (Cylinder.__init__ (Some (mk_nd [2; 2; 3]%nat (replicate 12 1%Q))) None None (Some 3%nat)
         (material.Material 0 1 (1, 0, 1)%Q) (material.Material 0 1 (0, 0, 0)%Q) 0
         empty_state)
  = Raise (ValueError "could not broadcast input array").
Proof.
  split; [reflexivity|].
  refine (proj1 (Cylinder_init_wrong_N (mk_nd [2; 2; 3]%nat (replicate 12 1%Q)) 2 3 None None
                   (material.Material 0 1 (1, 0, 1)%Q) (material.Material 0 1 (0, 0, 0)%Q) 0
                   empty_state eq_refl _ _)); discriminate.
Defined.



(** ** The constructor of Mesh *)





Lemma position_eval g v s G p o c :
  geometries s !! g = Some G → kind G = GeometryMesh p o c →
  Mesh.position (Mesh.mk (mk_Geometry g) v) s
  = (s, Ok (util.mk_array p (Some (mk_Geometry g)))).
Proof.
  intros HG Hk. unfold Mesh.position, Backend.getPositionBuffer, Backend.get_geometry, bind.
  simpl. by rewrite HG, Hk.
Qed.










(** ** The extents of a Mesh *)

Lemma getitem_column ws :
  getitem (vecs ws) [Full; At 0] = Ok (mk_nd [length ws] (coord 0 <$> ws)) ∧
  getitem (vecs ws) [Full; At 1] = Ok (mk_nd [length ws] (coord 1 <$> ws)) ∧
  getitem (vecs ws) [Full; At 2] = Ok (mk_nd [length ws] (coord 2 <$> ws)).
Proof.
  unfold getitem, vecs. cbn [numpy.shape flat].
  cbn [slice_shape Full slice_bounds snd norm_index]. simpl Z.leb. simpl Z.ltb.
  cbn [andb]. rewrite Nat.sub_0_r.
  unfold Full. cbn [gather slice_bounds]. rewrite Nat.sub_0_r, drop_0.
  change (numpy.size [3%nat]) with 3%nat.
  rewrite chunks_flat_map by apply vlist_length.
  rewrite take_ge by (by rewrite length_fmap).
  rewrite !concat_map_fmap.
  repeat split; do 2 f_equal;
    (induction ws as [|[[a b] c] ws IH]; [done|]; simpl; f_equal; exact IH).
Qed.

Lemma foldl_singletons (f : Q → Q → Q) x l :
  foldl (zip_with f) [x] ((λ y, [y]) <$> l) = [foldl f x l].
Proof. revert x. induction l as [|y l IH]; intros x; [done|]. simpl. apply IH. Qed.

Lemma reduce0_vector op f x l :
  reduce0 op f (mk_nd [S (length l)] (x :: l)) = Ok (scalar (foldl f x l)).
Proof.
  unfold reduce0. cbn [numpy.shape flat].
  change (S (length l)) with (length (x :: l)).
  change (numpy.size []) with 1%nat. rewrite chunks_singletons.
  cbn [fmap list_fmap]. by rewrite foldl_singletons.
Qed.

Lemma reduce0_column op f k ws :
  ws ≠ [] →
  reduce0 op f (mk_nd [length ws] (coord k <$> ws)) = Ok (scalar (column_extreme f k ws)).
Proof.
  intros Hne. destruct ws as [|w ws]; [done|]. cbn [length fmap list_fmap column_extreme].
  rewrite <- (length_fmap (coord k) ws). apply reduce0_vector.
Qed.

Lemma reduce0_scalars op f a b c :
  rbind (stack [scalar a; scalar b; scalar c]) (reduce0 op f) = Ok (scalar (f (f a b) c)).
Proof. reflexivity. Qed.

Lemma zip_with_scalar f m vs :
  zip_with f (flat_map vlist vs) (concat (replicate (length vs) [m; m; m]))
  = flat_map vlist ((λ v, vshift f v m) <$> vs).
Proof.
  induction vs as [|[[a b] c] vs IH]; [done|]. simpl. by rewrite IH.
Qed.

Lemma binop_scalar f vs m :
  binop f (vecs vs) (scalar m) = Ok (vecs ((λ v, vshift f v m) <$> vs)).
Proof.
  unfold binop, vecs, scalar. cbn [numpy.shape flat].
  change (broadcast_shapes [length vs; 3%nat] []) with (Some [length vs; 3%nat]).
  cbv iota beta.
  rewrite broadcast_flat_same by (rewrite length_flat_map_vlist; simpl; lia).
  assert (Hb : broadcast_flat [] [m] [length vs; 3%nat]
               = Some (concat (replicate (length vs) [m; m; m]))) by reflexivity.
  rewrite Hb. by rewrite zip_with_scalar, length_fmap.
Qed.

Lemma reduce0_shifted_scalar op f g vs m :
  vs ≠ [] →
  rbind (binop g (vecs vs) (scalar m)) (reduce0 op f)
  = Ok (mk_nd [3%nat] (vlist (extreme f ((λ v, vshift g v m) <$> vs)))).
Proof.
  intros Hne. rewrite binop_scalar. destruct vs as [|v vs]; [done|].
  cbn [rbind fmap list_fmap extreme]. apply reduce0_rows.
Qed.

Lemma getitem_vecs vs : getitem (vecs vs) [Full] = Ok (vecs vs).
Proof.
  apply (getitem_Full _ (length vs) [3%nat]); [done|].
  unfold vecs. cbn [flat]. rewrite length_flat_map_vlist. simpl. lia.
Qed.

Lemma Mesh_get_extents_eval self s ws vs :
  holds_mesh self s ws vs → ws ≠ [] → vs ≠ [] →
  ∃ s', Mesh.get_extents self s
        = (s', Ok (mk_nd [2; 3]%nat
                     (vlist (mesh_bound Qmin ws vs) ++ vlist (mesh_bound Qmax ws vs)))).
Proof.
  intros (Hv & G & p & o & c & Bp & HG & Hk & Hp & HBp) Hws Hvs.
  destruct self as [[g] vertices]. cbn [Mesh.vertices Mesh.geometry _geometry] in *.
  subst vertices.
  destruct (getitem_column ws) as (Ha & Hb & Hc).
  unfold Mesh.get_extents. cbn [Mesh.vertices].
  unfold bind at 1, lift at 1. rewrite Ha.
  unfold bind at 1, lift at 1. rewrite Hb.
  unfold bind at 1, lift at 1. rewrite Hc.
  unfold min0, max0.
  unfold bind at 1, lift at 1. rewrite reduce0_column by done.
  unfold bind at 1, lift at 1. rewrite reduce0_column by done.
  unfold bind at 1, lift at 1. rewrite reduce0_column by done.
  unfold bind at 1, lift at 1. rewrite reduce0_scalars.
  unfold bind at 1, lift at 1. rewrite reduce0_column by done.
  unfold bind at 1, lift at 1. rewrite reduce0_column by done.
  unfold bind at 1, lift at 1. rewrite reduce0_column by done.
  unfold bind at 1, lift at 1. rewrite reduce0_scalars.
  fold (template_extreme Qmin ws). fold (template_extreme Qmax ws).
  unfold bind at 1, lift at 1.
  change (stack [scalar (template_extreme Qmin ws); scalar (template_extreme Qmax ws)])
    with (Ok (mk_nd [2%nat] [template_extreme Qmin ws; template_extreme Qmax ws])).
  cbv iota beta.
  unfold bind at 1. erewrite position_eval by done.
  unfold bind at 1. rewrite (getitem_eval _ _ _ Bp) by done.
  rewrite HBp.
  rewrite getitem_vecs.
  unfold bind at 1, lift at 1.
  change (getitem (mk_nd [2%nat] [template_extreme Qmin ws; template_extreme Qmax ws]) [At 0])
    with (Ok (scalar (template_extreme Qmin ws))).
  cbv iota beta.
  unfold bind at 1, lift at 1. unfold add.
  rewrite (reduce0_shifted_scalar "minimum" Qmin add32 vs _ Hvs).
  unfold bind at 1, lift at 1.
  change (getitem (mk_nd [2%nat] [template_extreme Qmin ws; template_extreme Qmax ws]) [At 1])
    with (Ok (scalar (template_extreme Qmax ws))).
  cbv iota beta.
  unfold bind at 1, lift at 1.
  rewrite (reduce0_shifted_scalar "maximum" Qmax add32 vs _ Hvs).
  unfold lift. rewrite stack_pair. eauto.
Qed.

Section scalar_extremes.
Context (f : Q → Q → Q) (R : Q → Q → Prop).
Hypothesis f_selects : ∀ a b, (f a b == a)%Q ∨ (f a b == b)%Q.
Hypothesis f_bounds : ∀ a b, R (f a b) a ∧ R (f a b) b.
Hypothesis R_refl : ∀ a, R a a.
Hypothesis R_trans : ∀ a b c, R a b → R b c → R a c.

Lemma is_extreme_foldl_list x l : is_extreme R (foldl f x l) (x :: l).
Proof.
  revert x. induction l as [|y l IH]; intros x.
  - split; [exists x; split; [by left|reflexivity]|].
    intros z ->%list_elem_of_singleton. apply R_refl.
  - cbn [foldl]. eapply is_extreme_head; eauto.
Qed.

Lemma column_extreme_is_extreme k ws :
  ws ≠ [] → is_extreme R (column_extreme f k ws) (coord k <$> ws).
Proof. intros Hne. destruct ws as [|w ws]; [done|]. apply is_extreme_foldl_list. Qed.

Lemma coordinates_columns ws :
  (coord 0 <$> ws) ++ (coord 1 <$> ws) ++ (coord 2 <$> ws) ≡ₚ coordinates ws.
Proof.
  unfold coordinates. induction ws as [|[[a b] c] ws IH]; [done|].
  cbn [fmap list_fmap flat_map vlist app coord nth]. rewrite <- IH.
  apply Permutation_skip. symmetry. apply Permutation_cons_app.
  rewrite !app_assoc. by apply Permutation_cons_app.
Qed.

Lemma template_extreme_is_extreme ws :
  ws ≠ [] → is_extreme R (template_extreme f ws) (coordinates ws).
Proof.
  intros Hne. eapply is_extreme_Permutation; [apply coordinates_columns|].
  rewrite app_assoc. unfold template_extreme.
  apply is_extreme_app; [done..| |by apply column_extreme_is_extreme].
  apply is_extreme_app; [done..| |]; by apply column_extreme_is_extreme.
Qed.

Lemma mesh_bound_is_extreme k ws vs :
  (k < 3)%nat → vs ≠ [] →
  is_extreme R (coord k (mesh_bound f ws vs))
    ((λ v, add32 (coord k v) (template_extreme f ws)) <$> vs).
Proof.
  intros Hk Hne. unfold mesh_bound.
  set (m := template_extreme f ws).
  assert (Hl : (λ v, add32 (coord k v) m) <$> vs
               = coord k <$> ((λ v, vshift add32 v m) <$> vs)).
  { rewrite <- list_fmap_compose. apply list_fmap_ext. intros i v _. simpl.
    by rewrite coord_vshift. }
  rewrite Hl. apply is_extreme_extreme; try done. by destruct vs.
Qed.

End scalar_extremes.

Lemma coord_in_coordinates k w ws :
  (k < 3)%nat → w ∈ ws → coord k w ∈ coordinates ws.
Proof.
  intros Hk Hw. unfold coordinates. apply list_elem_of_In, in_flat_map.
  exists w. split; [by apply list_elem_of_In|].
  destruct w as [[a b] c]. destruct k as [|[|[|k]]]; simpl; auto. lia.
Qed.

Lemma Qmin_bounds a b : (Qmin a b <= a)%Q ∧ (Qmin a b <= b)%Q.
Proof. split; [apply Q.le_min_l|apply Q.le_min_r]. Qed.

Lemma Qmax_bounds a b : (a <= Qmax a b)%Q ∧ (b <= Qmax a b)%Q.
Proof. split; [apply Q.le_max_l|apply Q.le_max_r]. Qed.

Lemma Qge_trans a b c : (b <= a)%Q → (c <= b)%Q → (c <= a)%Q.
Proof. intros H1 H2. by eapply Qle_trans. Qed.


Lemma triangle_holds :
  holds_mesh triangle triangle_state [(0, 0, 0); (1, 0, 0); (0, 2, 0)]%Q [(0, 0, 0)%Q].
Proof.
  split; [reflexivity|].
  exists (mk_NativeGeometry (GeometryMesh 0 1 2) (material.Material 0 1 (1, 0, 1)%Q)
            (material.Material 0 1 (0, 0, 0)%Q) 0), 0%nat, 1%nat, 2%nat,
    (mk_Buffer (mk_nd [1; 3]%nat [0; 0; 0]%Q) float32 false).
  repeat split; by vm_compute.
Qed.


(** X20: the box that [Mesh.get_extents] returns contains the template
    translated by the positions (orientation ignored), in the float32
    arithmetic of the source: for every instance position v, every
    template vertex w and every axis k, the float32 sum v_k + w_k lies
    between the bounds returned for axis k.  The exact sum v_k + w_k lies
    between them as well when the additions of the two offsets are exact,
    that is when for every position v and axis k the sums v_k + m and
    v_k + M are float32 values, m and M being the least and the greatest
    coordinate of the template. *)
Theorem Mesh_get_extents_contains self s ws vs :
  holds_mesh self s ws vs → ws ≠ [] → vs ≠ [] →
  ∃ s' lo hi m M,
    Mesh.get_extents self s = (s', Ok (mk_nd [2; 3]%nat (vlist lo ++ vlist hi))) ∧
    is_minimum m (coordinates ws) ∧ is_maximum M (coordinates ws) ∧
    (∀ v w k, v ∈ vs → w ∈ ws → (k < 3)%nat →
              (coord k lo <= add32 (coord k v) (coord k w))%Q ∧
              (add32 (coord k v) (coord k w) <= coord k hi)%Q) ∧
    ((∀ v k, v ∈ vs → (k < 3)%nat →
        (add32 (coord k v) m == coord k v + m)%Q ∧
        (add32 (coord k v) M == coord k v + M)%Q) →
     ∀ v w k, v ∈ vs → w ∈ ws → (k < 3)%nat →
              (coord k lo <= coord k v + coord k w)%Q ∧
              (coord k v + coord k w <= coord k hi)%Q).
Proof.
  intros Hm Hws Hvs.
  destruct (Mesh_get_extents_eval self s ws vs Hm Hws Hvs) as [s' Hs'].
  pose proof (template_extreme_is_extreme Qmin Qle Qmin_selects Qmin_bounds Qle_refl
                Qle_trans ws Hws) as Hmin.
  pose proof (template_extreme_is_extreme Qmax (λ m x, (x <= m)%Q) Qmax_selects
                Qmax_bounds Qle_refl Qge_trans ws Hws) as Hmax.
  exists s', (mesh_bound Qmin ws vs), (mesh_bound Qmax ws vs),
    (template_extreme Qmin ws), (template_extreme Qmax ws).
  split; [exact Hs'|]. split; [exact Hmin|]. split; [exact Hmax|].
  assert (Hlo : ∀ v k, v ∈ vs → (k < 3)%nat →
            (coord k (mesh_bound Qmin ws vs)
             <= add32 (coord k v) (template_extreme Qmin ws))%Q).
  { intros v k Hv Hk.
    destruct (mesh_bound_is_extreme Qmin Qle Qmin_selects Qmin_bounds Qle_refl Qle_trans
                k ws vs Hk Hvs) as [_ Hlo].
    apply Hlo. apply list_elem_of_fmap. by exists v. }
  assert (Hhi : ∀ v k, v ∈ vs → (k < 3)%nat →
            (add32 (coord k v) (template_extreme Qmax ws)
             <= coord k (mesh_bound Qmax ws vs))%Q).
  { intros v k Hv Hk.
    destruct (mesh_bound_is_extreme Qmax (λ m x, (x <= m)%Q) Qmax_selects Qmax_bounds
                Qle_refl Qge_trans k ws vs Hk Hvs) as [_ Hhi].
    apply (Hhi (add32 (coord k v) (template_extreme Qmax ws))).
    apply list_elem_of_fmap. by exists v. }
  split.
  - intros v w k Hv Hw Hk.
    pose proof (coord_in_coordinates k w ws Hk Hw) as Hc.
    split.
    + apply (Qle_trans _ (add32 (coord k v) (template_extreme Qmin ws))); [by apply Hlo|].
      apply to_float32_mono, Qplus_le_r. by apply Hmin.
    + apply (Qle_trans _ (add32 (coord k v) (template_extreme Qmax ws))); [|by apply Hhi].
      apply to_float32_mono, Qplus_le_r. by apply Hmax.
  - intros Hexact v w k Hv Hw Hk.
    pose proof (coord_in_coordinates k w ws Hk Hw) as Hc.
    destruct (Hexact v k Hv Hk) as [Elo Ehi].
    split.
    + apply (Qle_trans _ (add32 (coord k v) (template_extreme Qmin ws))); [by apply Hlo|].
      rewrite Elo. apply Qplus_le_r. by apply Hmin.
    + apply (Qle_trans _ (coord k v + template_extreme Qmax ws)).
      * apply Qplus_le_r. by apply Hmax.
      * rewrite <- Ehi. by apply Hhi.
Qed.

Lemma Mesh_get_extents_contains_witness :
  holds_mesh triangle triangle_state [(0, 0, 0); (1, 0, 0); (0, 2, 0)]%Q [(0, 0, 0)%Q] ∧
  ∃ s' lo hi m M,
    Mesh.get_extents triangle triangle_state
    = (s', Ok (mk_nd [2; 3]%nat (vlist lo ++ vlist hi))) ∧
    is_minimum m (coordinates [(0, 0, 0); (1, 0, 0); (0, 2, 0)]%Q) ∧
    is_maximum M (coordinates [(0, 0, 0); (1, 0, 0); (0, 2, 0)]%Q) ∧
    (∀ v w k, v ∈ [(0, 0, 0)%Q] → w ∈ [(0, 0, 0); (1, 0, 0); (0, 2, 0)]%Q → (k < 3)%nat →
              (coord k lo <= add32 (coord k v) (coord k w))%Q ∧
              (add32 (coord k v) (coord k w) <= coord k hi)%Q) ∧
    ((∀ v k, v ∈ [(0, 0, 0)%Q] → (k < 3)%nat →
        (add32 (coord k v) m == coord k v + m)%Q ∧
        (add32 (coord k v) M == coord k v + M)%Q) →
     ∀ v w k, v ∈ [(0, 0, 0)%Q] → w ∈ [(0, 0, 0); (1, 0, 0); (0, 2, 0)]%Q → (k < 3)%nat →
              (coord k lo <= coord k v + coord k w)%Q ∧
              (coord k v + coord k w <= coord k hi)%Q).
Proof.
  split; [exact triangle_holds|].
  apply (Mesh_get_extents_contains triangle triangle_state _ _ triangle_holds);
    discriminate.
Defined.
